(** * IdeaGenie front end: request/response reconciliation layer

    A shallow embedding of the React component [App] (state, event
    handlers, and the points where the handlers suspend on a promise),
    of the transport function [request] of [services/api.js], and of the
    client-side helpers the handlers call.

    Conventions of the embedding.
    - A JavaScript string is a [string]: a sequence of code units below
      256.  Numbers that travel in JSON payloads are integers ([Z]); the
      component only tests them for truthiness and prints them, and the
      printing is that of the language for the safe integers ([Js.safe]).
    - A JavaScript value is a [value]: what [JSON.parse] can produce,
      [undefined], and the built-in functions that a property read can
      return ([VNative]).  A missing property reads as [VUndef], as in the
      language.
    - An [await] is a suspension: the handler stores the data its closure
      captured as a continuation [Cont] in the pool of pending promises,
      and is resumed by [resume] when the promise settles.  Every state
      update of React is applied at once, in program order.
    - [Date.now()], [Math.random()] and [new Date().toISOString()] are
      read from an environment record [Env].
    - Left out: the theme toggle, the timer that clears the notice, and
      the markup.  A render that throws (a record text or a saved list
      that React cannot render) unmounts the component; the states after
      it are kept in the model, which so has more states than the
      component. *)

From Stdlib Require Import ZArith Ascii String DecimalString.
From Stdlib Require DecimalPos DecimalZ.
From stdpp Require Import gmap strings list fin_maps.

Local Open Scope string_scope.
Local Set Warnings "-register-all".

(** ** Strings *)

Module Str.

Definition chars (s : string) : list ascii := list_ascii_of_string s.
Definition pack (l : list ascii) : string := string_of_list_ascii l.

(** White space of [String.prototype.trim] among the code units below 256:
    TAB, LF, VT, FF, CR, SPACE and NBSP. *)
Definition is_space (c : ascii) : bool :=
  let n := nat_of_ascii c in
  (((9 <=? n) && (n <=? 13)) || (n =? 32) || (n =? 160))%nat.

(** The class [\w] of a regular expression without the unicode flag. *)
Definition is_word (c : ascii) : bool :=
  let n := nat_of_ascii c in
  (((48 <=? n) && (n <=? 57)) || ((65 <=? n) && (n <=? 90))
   || ((97 <=? n) && (n <=? 122)) || (n =? 95))%nat.

Fixpoint drop_while (p : ascii -> bool) (l : list ascii) : list ascii :=
  match l with
  | [] => []
  | c :: l' => if p c then drop_while p l' else l
  end.

Definition trim_chars (l : list ascii) : list ascii :=
  rev (drop_while is_space (rev (drop_while is_space l))).

(** [s.trim()] *)
Definition trim (s : string) : string := pack (trim_chars (chars s)).

(** [s.slice(0, n)] for [n >= 0] *)
Definition slice_to (n : nat) (s : string) : string := pack (take n (chars s)).

(** [s.slice(-n)] for [n > 0] *)
Definition slice_last (n : nat) (s : string) : string :=
  pack (drop (length (chars s) - n) (chars s)).

(** [s.replace(/[^\w\- ]+/g, "")]: every maximal run of characters outside
    the class is removed, which leaves exactly the characters inside it. *)
Definition keeps (c : ascii) : bool :=
  is_word c || (nat_of_ascii c =? 45)%nat || (nat_of_ascii c =? 32)%nat.

Definition strip_unsafe (s : string) : string :=
  pack (List.filter keeps (chars s)).

Definition is_empty (s : string) : bool :=
  match s with EmptyString => true | _ => false end.

(** [a || b] on two strings *)
Definition or_else (a b : string) : string := if is_empty a then b else a.

(** Decimal rendering of an integer, as [String(n)] gives it. *)
Definition of_Z (z : Z) : string := NilZero.string_of_int (Z.to_int z).

Definition to_upper_char (c : ascii) : ascii :=
  let n := nat_of_ascii c in
  if ((97 <=? n) && (n <=? 122))%nat then ascii_of_nat (n - 32) else c.

(** [s.toUpperCase()] on the letters a-z *)
Definition to_upper (s : string) : string := pack (map to_upper_char (chars s)).

End Str.

(** ** JavaScript values *)

Inductive value : Type :=
| VUndef
| VNull
| VBool (b : bool)
| VNum (n : Z)
| VStr (s : string)
| VArr (items : list value)
| VObj (fields : list (string * value))
| VNative (name : string).

Module Js.

(** [Boolean(v)] *)
Definition truthy (v : value) : bool :=
  match v with
  | VUndef | VNull => false
  | VBool b => b
  | VNum n => negb (n =? 0)%Z
  | VStr s => negb (Str.is_empty s)
  | VArr _ | VObj _ | VNative _ => true
  end.

(** [a || b] *)
Definition or (a b : value) : value := if truthy a then a else b.

(** [a && b] *)
Definition and (a b : value) : value := if truthy a then b else a.

Fixpoint assoc (k : string) (fs : list (string * value)) : value :=
  match fs with
  | [] => VUndef
  | (k', v) :: fs' => if String.eqb k k' then v else assoc k fs'
  end.

(** [v?.k] for the property names the component and the transport read
    ([ideas], [items], [text], [idea], [id], [url], [link], [content],
    [detail], [message], ...).  Of these only [link] exists on a prototype:
    [String.prototype.link] is a built-in function, so a string has a
    [link]; every other read finds an own property of an object or
    nothing. *)
Definition get (v : value) (k : string) : value :=
  match v with
  | VObj fs => assoc k fs
  | VStr _ => if String.eqb k "link" then VNative "link" else VUndef
  | _ => VUndef
  end.

Definition is_array (v : value) : bool :=
  match v with VArr _ => true | _ => false end.

Definition is_string (v : value) : bool :=
  match v with VStr _ => true | _ => false end.

(** [typeof v === "object"] *)
Definition typeof_object (v : value) : bool :=
  match v with VNull | VArr _ | VObj _ => true | _ => false end.

Fixpoint join (sep : string) (l : list string) : string :=
  match l with
  | [] => ""
  | [s] => s
  | s :: l' => s +:+ sep +:+ join sep l'
  end.

(** Whether an object has an own property [k]. *)
Definition has_own (k : string) (fs : list (string * value)) : bool :=
  existsb (fun f => String.eqb k (fst f)) fs.

(** The conversion [ToString(v)] of the language, which [String(v)],
    [new Error(v)], a template literal and the DOM setters apply; [None]
    when it throws a [TypeError].  An object is converted by its [toString]:
    the inherited one answers "[object Object]", an own [toString] property
    of an object that came out of [JSON.parse] is not callable, and the
    conversion then throws (the inherited [valueOf] returns the object
    itself).  An array joins the conversions of its elements.  The digits of
    a number are exact for the safe integers ([safe]); beyond them the
    language rounds and, from 1e21, switches to exponent notation. *)
Fixpoint to_string (v : value) : option string :=
  match v with
  | VUndef => Some "undefined"
  | VNull => Some "null"
  | VBool true => Some "true"
  | VBool false => Some "false"
  | VNum n => Some (Str.of_Z n)
  | VStr s => Some s
  | VArr l =>
      option_map (join ",")
        ((fix each (l : list value) : option (list string) :=
            match l with
            | [] => Some []
            | x :: l' =>
                match (match x with
                       | VUndef | VNull => Some ""
                       | _ => to_string x
                       end), each l' with
                | Some s, Some r => Some (s :: r)
                | _, _ => None
                end
            end) l)
  | VObj fs => if has_own "toString" fs then None else Some "[object Object]"
  | VNative name => Some ("function " +:+ name +:+ "() { [native code] }")
  end.

(** Whether the conversion to a string runs through. *)
Definition converts (v : value) : bool :=
  match to_string v with Some _ => true | None => false end.


End Js.

(** ** Errors and settled promises *)

(** A thrown [Error]: its [name], its [message], and the [status] and
    [body] that [request] attaches to it ([None] and [VUndef] on an error
    that has none). *)
Record JsError : Type := mkJsError {
  err_name : string;
  err_message : string;
  err_status : option Z;
  err_body : value
}.

(** [new Error(message)] *)
Definition new_Error (message : string) : JsError :=
  mkJsError "Error" message None VUndef.

(** The [TypeError] of a conversion to string that fails; the text of its
    message is the engine's, here V8's. *)
Definition conversion_error : JsError :=
  mkJsError "TypeError" "Cannot convert object to primitive value" None VUndef.

(** How an awaited promise settles. *)
Inductive Outcome : Type :=
| Fulfilled (v : value)
| Rejected (e : JsError).

(** ** services/api.js: the transport *)

Module Api.

Definition DEFAULT_TIMEOUT_MS : Z := 60000.

(** What [fetch] followed by [response.text()] gives: a response with its
    status and text, or a rejection (an [AbortError] when the timeout
    fired, any other error on a network failure). *)
Inductive Fetched : Type :=
| Responded (status : Z) (text : string)
| Threw (e : JsError).

(** [res.ok] *)
Definition ok (status : Z) : bool := ((200 <=? status) && (status <=? 299))%Z.

Section Transport.

(** [JSON.parse], with [None] for a [SyntaxError]. *)
Variable JSON_parse : string -> option value.

Definition safeParseBody (text : string) : value :=
  if Str.is_empty text then VNull
  else match JSON_parse text with
       | Some v => v
       | None => VStr text
       end.

(** The [message] expression of the [!res.ok] branch. *)
Definition failure_message (status : Z) (body : value) : value :=
  Js.or
    (Js.or
       (Js.and (Js.and body (VBool (Js.typeof_object body)))
               (Js.or (Js.get body "detail") (Js.get body "message")))
       (if Js.is_string body then body else VNull))
    (VStr ("Request failed with status " +:+ Str.of_Z status)).

(** In the [!res.ok] branch [new Error(message)] converts [message]; when
    that throws, the [TypeError] is what the [catch] clause rethrows, and no
    status or body is attached. *)
Definition request (f : Fetched) : Outcome :=
  match f with
  | Responded status text =>
      let body := safeParseBody text in
      if negb (ok status)
      then match Js.to_string (failure_message status body) with
           | Some message =>
               Rejected (mkJsError "Error" message (Some status) body)
           | None => Rejected conversion_error
           end
      else Fulfilled body
  | Threw e =>
      if String.eqb (err_name e) "AbortError"
      then Rejected (new_Error "Request timed out. Please try again.")
      else Rejected e
  end.

End Transport.

(** The five calls the component makes, each a [request] on a fixed
    method and path with the given payload. *)
Inductive Call : Type :=
| generateIdeas (topic tone : string) (count : Z)
| saveIdea (topic : string) (idea : value)
| listSavedIdeas
| shareIdea (ideaId : value)
| exportIdea (ideaId : value) (format : string).

End Api.

(** ** App.js: the rows of the saved panel *)

Module Saved.

(** [it?.text || it?.idea || it?.content || ""] *)
Definition row_text (it : value) : value :=
  Js.or (Js.or (Js.or (Js.get it "text") (Js.get it "idea"))
               (Js.get it "content"))
        (VStr "").

(** [it?.id || it?.idea_id || it?.ideaId || String(idx)] *)
Definition row_key (idx : nat) (it : value) : value :=
  Js.or (Js.or (Js.or (Js.get it "id") (Js.get it "idea_id"))
               (Js.get it "ideaId"))
        (VStr (Str.of_Z (Z.of_nat idx))).

(** [{text || "(empty)"}] *)
Definition shown (text : value) : value := Js.or text (VStr "(empty)").

(** A rendered row: its key, the text it shows, and the text its Copy button
    hands to [copyToClipboard]. *)
Record Row : Type := mkRow {
  key : value;
  label : value;
  copied : value
}.

(** [savedIdeas.slice(0, 20).map(...)] when [savedIdeas] is the array [l]. *)
Definition rows (l : list value) : list Row :=
  imap (fun idx it => mkRow (row_key idx it) (shown (row_text it)) (row_text it))
       (take 20 l).

(** What [copyToClipboard(text)] of clientActions.js writes: nothing for a
    falsy text, the text otherwise. *)
Definition written (text : value) : option value :=
  if negb (Js.truthy text) then None else Some text.

(** An entry whose fields read by the panel are strings or absent: the row
    made from it has a string for its label and for its key, which React
    renders.  (A label that is an object makes the render throw.) *)
Definition plain (it : value) : bool :=
  forallb (fun k => match Js.get it k with
                    | VUndef | VStr _ => true
                    | _ => false
                    end)
    ["text"; "idea"; "content"; "id"; "idea_id"; "ideaId"].

End Saved.

(** ** App.js: the component *)

Module App.

(** *** State *)

Inductive Status : Type := idle | loading | error | success.

#[global] Instance Status_eq_dec : EqDecision Status :=
  ltac:(solve_decision).

(** A generated idea: [{id, text, savedId?, savedAt?}]. *)
Record Idea : Type := mkIdea {
  id : string;
  text : value;
  savedId : value;
  savedAt : option string
}.

(** An entry of [busyByIdeaId]: [{saving?, sharing?, exporting?}]; the
    same shape serves as the [patch] argument of [setIdeaBusy]. *)
Record Busy : Type := mkBusy {
  saving : option bool;
  sharing : option bool;
  exporting : option bool
}.

Record Notice : Type := mkNotice {
  notice_type : string;
  notice_message : string
}.

(** The [useState] cells of [App] (the theme apart). *)
Record State : Type := mkState {
  topic : string;
  tone : string;
  count : Z;
  ideas : list Idea;
  generationStatus : Status;
  generationError : string;
  savedIdeas : value;
  savedStatus : Status;
  savedError : string;
  busyByIdeaId : gmap string Busy;
  errorByIdeaId : gmap string string;
  notice : option Notice
}.

Definition setTopic (v : string) (a : State) : State :=
  mkState v (tone a) (count a) (ideas a) (generationStatus a)
    (generationError a) (savedIdeas a) (savedStatus a) (savedError a)
    (busyByIdeaId a) (errorByIdeaId a) (notice a).

Definition setTone (v : string) (a : State) : State :=
  mkState (topic a) v (count a) (ideas a) (generationStatus a)
    (generationError a) (savedIdeas a) (savedStatus a) (savedError a)
    (busyByIdeaId a) (errorByIdeaId a) (notice a).

Definition setCount (v : Z) (a : State) : State :=
  mkState (topic a) (tone a) v (ideas a) (generationStatus a)
    (generationError a) (savedIdeas a) (savedStatus a) (savedError a)
    (busyByIdeaId a) (errorByIdeaId a) (notice a).

Definition setIdeas (v : list Idea) (a : State) : State :=
  mkState (topic a) (tone a) (count a) v (generationStatus a)
    (generationError a) (savedIdeas a) (savedStatus a) (savedError a)
    (busyByIdeaId a) (errorByIdeaId a) (notice a).

Definition setGenerationStatus (v : Status) (a : State) : State :=
  mkState (topic a) (tone a) (count a) (ideas a) v
    (generationError a) (savedIdeas a) (savedStatus a) (savedError a)
    (busyByIdeaId a) (errorByIdeaId a) (notice a).

Definition setGenerationError (v : string) (a : State) : State :=
  mkState (topic a) (tone a) (count a) (ideas a) (generationStatus a)
    v (savedIdeas a) (savedStatus a) (savedError a)
    (busyByIdeaId a) (errorByIdeaId a) (notice a).

Definition setSavedIdeas (v : value) (a : State) : State :=
  mkState (topic a) (tone a) (count a) (ideas a) (generationStatus a)
    (generationError a) v (savedStatus a) (savedError a)
    (busyByIdeaId a) (errorByIdeaId a) (notice a).

Definition setSavedStatus (v : Status) (a : State) : State :=
  mkState (topic a) (tone a) (count a) (ideas a) (generationStatus a)
    (generationError a) (savedIdeas a) v (savedError a)
    (busyByIdeaId a) (errorByIdeaId a) (notice a).

Definition setSavedError (v : string) (a : State) : State :=
  mkState (topic a) (tone a) (count a) (ideas a) (generationStatus a)
    (generationError a) (savedIdeas a) (savedStatus a) v
    (busyByIdeaId a) (errorByIdeaId a) (notice a).

Definition setBusyByIdeaId (v : gmap string Busy) (a : State) : State :=
  mkState (topic a) (tone a) (count a) (ideas a) (generationStatus a)
    (generationError a) (savedIdeas a) (savedStatus a) (savedError a)
    v (errorByIdeaId a) (notice a).

Definition setErrorByIdeaId (v : gmap string string) (a : State) : State :=
  mkState (topic a) (tone a) (count a) (ideas a) (generationStatus a)
    (generationError a) (savedIdeas a) (savedStatus a) (savedError a)
    (busyByIdeaId a) v (notice a).

Definition setNotice (v : option Notice) (a : State) : State :=
  mkState (topic a) (tone a) (count a) (ideas a) (generationStatus a)
    (generationError a) (savedIdeas a) (savedStatus a) (savedError a)
    (busyByIdeaId a) (errorByIdeaId a) v.

(** The values of the [useState] calls. *)
Definition initial : State :=
  mkState "" "Creative" 6 [] idle "" (VArr []) idle "" ∅ ∅ None.

(** *** Helpers of the component *)

Definition no_busy : Busy := mkBusy None None None.

(** [{ ...b, ...patch }] *)
Definition spread (b patch : Busy) : Busy :=
  mkBusy (from_option Some (saving b) (saving patch))
         (from_option Some (sharing b) (sharing patch))
         (from_option Some (exporting b) (exporting patch)).

(** [busyByIdeaId[i] || {}] *)
Definition busy_of (a : State) (i : string) : Busy :=
  default no_busy (busyByIdeaId a !! i).

Definition setIdeaBusy (i : string) (patch : Busy) (a : State) : State :=
  setBusyByIdeaId (<[i := spread (busy_of a i) patch]> (busyByIdeaId a)) a.

Definition setIdeaError (i : string) (message : string) (a : State) : State :=
  setErrorByIdeaId (<[i := message]> (errorByIdeaId a)) a.

(** [showNotice]; the timer that clears the notice 3.5 s later is not part
    of the model. *)
Definition showNotice (type message : string) (a : State) : State :=
  setNotice (Some (mkNotice type message)) a.

(** A flag of a [Busy] entry read as a condition. *)
Definition on (flag : option bool) : bool := default false flag.

Definition canGenerate (a : State) : bool :=
  (3 <=? String.length (Str.trim (topic a)))%nat
  && negb (bool_decide (generationStatus a = loading)).

(** *** The outside world *)

(** The clock and the random source, indexed by the call within one
    resumption of a handler. *)
Record Env : Type := mkEnv {
  Date_now : nat -> Z;
  Math_random_hex : nat -> string;
  toISOString : string
}.

(** [makeLocalId()], at its [k]-th call *)
Definition makeLocalId (env : Env) (k : nat) : string :=
  "local_" +:+ Str.of_Z (Date_now env k) +:+ "_" +:+ Math_random_hex env k.

(** The [content] handed to [downloadTextFile]: a value as it is, or the
    text [JSON.stringify(v, null, 2)]. *)
Inductive Content : Type :=
| Verbatim (v : value)
| Stringified (v : value).

Record Download : Type := mkDownload {
  filename : value;
  content : Content;
  mimeType : value
}.

(** What a suspended handler resumes with: the point of the [await] and
    the variables of its closure. *)
Inductive Cont : Type :=
| KInitialLoad
| KGenerate (count : Z)
| KSave (idea : Idea)
| KSaveRefresh (idea : Idea)
| KShare (idea : Idea)
| KShareCopy (idea : Idea)
| KExport (idea : Idea) (savedId : value) (format : string)
| KCopied.

Record World : Type := mkWorld {
  app : State;
  pending : list (nat * Cont);
  next : nat;
  network : list Api.Call;
  downloads : list Download;
  clipboard : list value
}.

(** A state update of the component. *)
Definition upd (f : State -> State) (w : World) : World :=
  mkWorld (f (app w)) (pending w) (next w) (network w) (downloads w)
    (clipboard w).

(** Suspend on a fresh promise. *)
Definition await (k : Cont) (w : World) : World :=
  mkWorld (app w) (pending w ++ [(next w, k)]) (S (next w)) (network w)
    (downloads w) (clipboard w).

(** Issue a call of [services/api.js] and suspend on it. *)
Definition call (c : Api.Call) (k : Cont) (w : World) : World :=
  await k (mkWorld (app w) (pending w) (next w) (network w ++ [c])
             (downloads w) (clipboard w)).

Definition downloadTextFile (d : Download) (w : World) : World :=
  mkWorld (app w) (pending w) (next w) (network w) (downloads w ++ [d])
    (clipboard w).

(** Whether [downloadTextFile] runs through: [new Blob([content], { type })]
    converts the content and the type to strings and [a.download = filename]
    the name; a conversion that throws leaves nothing downloaded.  The text
    of [JSON.stringify] is a string already. *)
Definition downloadable (d : Download) : bool :=
  match content d with
  | Verbatim c => Js.converts c
  | Stringified _ => true
  end
  && Js.converts (mimeType d) && Js.converts (filename d).

(** [copyToClipboard(text)] for a truthy [text]: the text is handed to the
    clipboard, and the caller suspends on the promise that tells whether it
    was written. *)
Definition copyToClipboard (text : value) (w : World) : World :=
  mkWorld (app w) (pending w) (next w) (network w) (downloads w)
    (clipboard w ++ [text]).

Fixpoint take_pending (rid : nat) (p : list (nat * Cont))
  : option (Cont * list (nat * Cont)) :=
  match p with
  | [] => None
  | (r, k) :: p' =>
      if Nat.eqb r rid then Some (k, p')
      else match take_pending rid p' with
           | Some (k', q) => Some (k', (r, k) :: q)
           | None => None
           end
  end.

(** *** Generate *)

(** [list] of [onGenerate]:
    [(Array.isArray(result) && result) || result?.ideas || result?.items || []] *)
Definition pick_list (result : value) : value :=
  Js.or
    (Js.or
       (Js.or (Js.and (VBool (Js.is_array result)) result)
              (Js.get result "ideas"))
       (Js.get result "items"))
    (VArr []).

(** [typeof item === "string" ? item : item?.text || item?.idea || ""] *)
Definition item_text (item : value) : value :=
  if Js.is_string item then item
  else Js.or (Js.or (Js.get item "text") (Js.get item "idea")) (VStr "").

(** [Math.max(1, Number(count) || 6)] *)
Definition slice_end (count : Z) : Z :=
  Z.max 1 (if (count =? 0)%Z then 6 else count).

(** The texts kept from an array [l]: mapped, filtered, sliced. *)
Definition kept_texts (count : Z) (l : list value) : list value :=
  take (Z.to_nat (slice_end count)) (List.filter Js.truthy (map item_text l)).

Definition fresh_idea (env : Env) (k : nat) (t : value) : Idea :=
  mkIdea (makeLocalId env k) t VUndef None.

(** The body of the [try] of [onGenerate] after the [await], up to
    [normalized]; [list.map] throws a [TypeError] when [list] is not an
    array. *)
Definition normalize (env : Env) (count : Z) (result : value)
  : JsError + list Idea :=
  match pick_list result with
  | VArr l => inr (imap (fresh_idea env) (kept_texts count l))
  | _ => inl (mkJsError "TypeError" "list.map is not a function" None VUndef)
  end.

Definition onGenerate (w : World) : World :=
  let trimmed := Str.trim (topic (app w)) in
  if (String.length trimmed <? 3)%nat then
    upd (setGenerationError "Please enter at least 3 characters.")
      (upd (setGenerationStatus error) w)
  else
    call (Api.generateIdeas trimmed (tone (app w)) (count (app w)))
      (KGenerate (count (app w)))
      (upd (setIdeas [])
         (upd (setGenerationError "")
            (upd (setGenerationStatus loading) w))).

Definition generate_catch (e2 : JsError) (w : World) : World :=
  upd (setGenerationError
         (Str.or_else (err_message e2) "Failed to generate ideas."))
    (upd (setGenerationStatus error) w).

Definition resume_generate (env : Env) (count : Z) (o : Outcome) (w : World)
  : World :=
  match o with
  | Fulfilled result =>
      match normalize env count result with
      | inr normalized =>
          upd (showNotice "success" "Ideas generated.")
            (upd (setGenerationStatus success)
               (upd (setIdeas normalized) w))
      | inl e2 => generate_catch e2 w
      end
  | Rejected e2 => generate_catch e2 w
  end.

(** *** Save *)

Definition onSave (idea : Idea) (w : World) : World :=
  call (Api.saveIdea (Str.trim (topic (app w))) (text idea)) (KSave idea)
    (upd (setIdeaBusy (id idea) (mkBusy (Some true) None None))
       (upd (setIdeaError (id idea) "") w)).

(** [data?.id || data?.idea?.id || data?.idea_id || data?.ideaId] *)
Definition response_id (data : value) : value :=
  Js.or
    (Js.or
       (Js.or (Js.get data "id") (Js.get (Js.get data "idea") "id"))
       (Js.get data "idea_id"))
    (Js.get data "ideaId").

(** The function mapped over [prev] by the [setIdeas] of [onSave]. *)
Definition mark_saved (env : Env) (target : string) (newId : value)
  (it : Idea) : Idea :=
  if String.eqb (id it) target then
    mkIdea (id it) (text it)
      (Js.or (Js.or newId (savedId it)) (VStr (id it)))
      (Some (toISOString env))
  else it.

Definition save_finally (idea : Idea) (w : World) : World :=
  upd (setIdeaBusy (id idea) (mkBusy (Some false) None None)) w.

Definition resume_save (env : Env) (idea : Idea) (o : Outcome) (w : World)
  : World :=
  match o with
  | Fulfilled data =>
      call Api.listSavedIdeas (KSaveRefresh idea)
        (upd (fun a =>
                setIdeas (map (mark_saved env (id idea) (response_id data))
                            (ideas a)) a)
           (upd (showNotice "success" "Saved.") w))
  | Rejected e =>
      save_finally idea
        (upd (showNotice "error" "Save failed.")
           (upd (setIdeaError (id idea)
                   (Str.or_else (err_message e) "Failed to save.")) w))
  end.

(** [Array.isArray(data) ? data : data?.items || []] *)
Definition listed_items (data : value) : value :=
  if Js.is_array data then data else Js.or (Js.get data "items") (VArr []).

Definition resume_save_refresh (idea : Idea) (o : Outcome) (w : World)
  : World :=
  match o with
  | Fulfilled refreshed =>
      save_finally idea
        (upd (setSavedStatus success)
           (upd (setSavedIdeas (listed_items refreshed)) w))
  | Rejected _ => save_finally idea w
  end.

(** *** The initial load of the saved ideas *)

Definition mount : World :=
  call Api.listSavedIdeas KInitialLoad
    (upd (setSavedError "")
       (upd (setSavedStatus loading) (mkWorld initial [] 0 [] [] []))).

Definition resume_initial_load (o : Outcome) (w : World) : World :=
  match o with
  | Fulfilled data =>
      upd (setSavedStatus success)
        (upd (setSavedIdeas (listed_items data)) w)
  | Rejected e =>
      upd (setSavedError
             (Str.or_else (err_message e) "Failed to load saved ideas."))
        (upd (setSavedStatus error) w)
  end.

(** *** Share *)

Definition share_finally (idea : Idea) (w : World) : World :=
  upd (setIdeaBusy (id idea) (mkBusy None (Some false) None)) w.

Definition share_catch (idea : Idea) (e : JsError) (w : World) : World :=
  share_finally idea
    (upd (showNotice "error" "Share failed.")
       (upd (setIdeaError (id idea)
               (Str.or_else (err_message e) "Failed to share.")) w)).

Definition onShare (idea : Idea) (w : World) : World :=
  if negb (Js.truthy (savedId idea)) then
    upd (setIdeaError (id idea) "Save the idea before sharing.") w
  else
    call (Api.shareIdea (savedId idea)) (KShare idea)
      (upd (setIdeaBusy (id idea) (mkBusy None (Some true) None))
         (upd (setIdeaError (id idea) "") w)).

(** [data?.url || data?.share_url || data?.shareUrl || data?.link || ""] *)
Definition response_url (data : value) : value :=
  Js.or
    (Js.or
       (Js.or (Js.or (Js.get data "url") (Js.get data "share_url"))
              (Js.get data "shareUrl"))
       (Js.get data "link"))
    (VStr "").

Definition resume_share (idea : Idea) (o : Outcome) (w : World) : World :=
  match o with
  | Fulfilled data =>
      let url := response_url data in
      if negb (Js.truthy url) then
        share_catch idea (new_Error "Backend did not return a share URL.") w
      else await (KShareCopy idea) (copyToClipboard url w)
  | Rejected e => share_catch idea e w
  end.

Definition resume_share_copy (idea : Idea) (o : Outcome) (w : World)
  : World :=
  match o with
  | Fulfilled _ =>
      share_finally idea
        (upd (showNotice "success" "Share link copied to clipboard.") w)
  | Rejected e => share_catch idea e w
  end.

(** *** Export *)

(** [safeName] of [onExport] *)
Definition safeName (topic : string) : string :=
  Str.or_else
    (Str.trim
       (Str.strip_unsafe
          (Str.slice_to 40 (Str.or_else (Str.trim topic) "idea"))))
    "idea".

(** [base] of [onExport] *)
Definition export_base (topic : string) (idea : Idea) : string :=
  safeName topic +:+ "-" +:+ Str.slice_last 6 (id idea).

Definition export_finally (idea : Idea) (w : World) : World :=
  upd (setIdeaBusy (id idea) (mkBusy None None (Some false))) w.

Definition export_catch (idea : Idea) (e : JsError) (w : World) : World :=
  export_finally idea
    (upd (showNotice "error" "Export failed.")
       (upd (setIdeaError (id idea)
               (Str.or_else (err_message e) "Failed to export.")) w)).

(** [downloadTextFile(d); showNotice("success", message); return;] in the
    branch of [onExport] that has no [try]: when the download throws, the
    handler ends there and nothing has changed. *)
Definition local_export (d : Download) (message : string) (w : World) : World :=
  if downloadable d
  then upd (showNotice "success" message) (downloadTextFile d w)
  else w.

Definition onExport (idea : Idea) (format : string) (w : World) : World :=
  if negb (Js.truthy (savedId idea)) then
    let base := export_base (topic (app w)) idea in
    if String.eqb format "txt" then
      local_export
        (mkDownload (VStr (base +:+ ".txt")) (Verbatim (text idea))
           (VStr "text/plain;charset=utf-8"))
        "Exported as .txt" w
    else if String.eqb format "json" then
      local_export
        (mkDownload (VStr (base +:+ ".json"))
           (Stringified
              (VObj [("topic", VStr (Str.trim (topic (app w))));
                     ("idea", text idea)]))
           (VStr "application/json;charset=utf-8"))
        "Exported as .json" w
    else
      upd (setIdeaError (id idea)
             "Save the idea before exporting in this format.") w
  else
    call (Api.exportIdea (savedId idea) format)
      (KExport idea (savedId idea) format)
      (upd (setIdeaBusy (id idea) (mkBusy None None (Some true)))
         (upd (setIdeaError (id idea) "") w)).

Definition export_content (data : value) : Content :=
  let c :=
    Js.or
      (Js.or (if Js.is_string data then data else VNull)
             (Js.get data "content"))
      (Js.get data "data") in
  if Js.truthy c then Verbatim c else Stringified data.

Definition export_extension (format : string) : string :=
  if String.eqb format "md" then "md"
  else if String.eqb format "txt" then "txt" else "json".

(** [data?.filename || `idea-${id}.${...}`]; the template literal converts
    [id], and is evaluated only when the answer has no [filename]. *)
Definition export_filename (data savedId : value) (format : string)
  : option value :=
  if Js.truthy (Js.get data "filename") then Some (Js.get data "filename")
  else option_map
         (fun shown => VStr ("idea-" +:+ shown +:+ "."
                              +:+ export_extension format))
         (Js.to_string savedId).

Definition export_mimeType (data : value) (format : string) : value :=
  Js.or (Js.get data "mimeType")
    (VStr (if String.eqb format "json"
           then "application/json;charset=utf-8"
           else "text/plain;charset=utf-8")).

Definition resume_export (idea : Idea) (savedId : value) (format : string)
  (o : Outcome) (w : World) : World :=
  match o with
  | Fulfilled data =>
      match export_filename data savedId format with
      | Some name =>
          let d := mkDownload name (export_content data)
                     (export_mimeType data format) in
          if downloadable d then
            export_finally idea
              (upd (showNotice "success"
                      ("Exported " +:+ Str.to_upper format +:+ "."))
                 (downloadTextFile d w))
          else export_catch idea conversion_error w
      | None => export_catch idea conversion_error w
      end
  | Rejected e => export_catch idea e w
  end.

(** *** Copy *)

(** [copyToClipboard(text).then(() => showNotice("success", "Copied."))] of
    the Copy buttons: the helper writes nothing for a falsy text, and the
    notice waits for its promise. *)
Definition onCopy (text : value) (w : World) : World :=
  await KCopied (if Js.truthy text then copyToClipboard text w else w).

(** A rejection of the copy has no handler. *)
Definition resume_copied (o : Outcome) (w : World) : World :=
  match o with
  | Fulfilled _ => upd (showNotice "success" "Copied.") w
  | Rejected _ => w
  end.

(** *** Resumption of a suspended handler *)

Definition set_pending (p : list (nat * Cont)) (w : World) : World :=
  mkWorld (app w) p (next w) (network w) (downloads w) (clipboard w).

Definition run_cont (env : Env) (k : Cont) (o : Outcome) (w : World)
  : World :=
  match k with
  | KInitialLoad => resume_initial_load o w
  | KGenerate count => resume_generate env count o w
  | KSave idea => resume_save env idea o w
  | KSaveRefresh idea => resume_save_refresh idea o w
  | KShare idea => resume_share idea o w
  | KShareCopy idea => resume_share_copy idea o w
  | KExport idea savedId format => resume_export idea savedId format o w
  | KCopied => resume_copied o w
  end.

(** The promise [rid] settles with [o]; a promise that is not pending
    wakes nothing. *)
Definition resume (env : Env) (rid : nat) (o : Outcome) (w : World) : World :=
  match take_pending rid (pending w) with
  | Some (k, rest) => run_cont env k o (set_pending rest w)
  | None => w
  end.

(** *** The rendered controls *)

Definition tones : list string :=
  ["Creative"; "Practical"; "Technical"; "Marketing"; "Friendly";
   "Professional"].

Definition counts : list Z := [3; 6; 9; 12]%Z.

(** The idea list is rendered when [generationStatus !== "loading"] and
    [ideas.length > 0]. *)
Definition list_shown (a : State) : bool :=
  negb (bool_decide (generationStatus a = loading))
  && (0 <? length (ideas a))%nat.

(** What can happen to the mounted component: an input changes, a control
    that is rendered and not [disabled] is activated, the form receives a
    submit event, or a promise settles.  [Submit] is the click on the submit
    button, which is [disabled] by [!canGenerate]; [FormSubmit] is a submit
    event that reaches the form by another way, and runs [onSubmit] whatever
    the button's state. *)
Inductive Event : Type :=
| ChangeTopic (v : string)
| ChangeTone (v : string)
| ChangeCount (v : Z)
| Submit
| FormSubmit
| ClickCopy (i : nat)
| ClickSave (i : nat)
| ClickShare (i : nat)
| ClickExport (i : nat) (format : string)
| ClickCopySaved (i : nat)
| Settle (env : Env) (rid : nat) (o : Outcome).

(** A button of the [i]-th idea card, [disabled] by [flag]. *)
Definition card_button (flag : Busy -> option bool) (i : nat)
  (handler : Idea -> World -> World) (w : World) : World :=
  if list_shown (app w) then
    match ideas (app w) !! i with
    | Some idea =>
        if on (flag (busy_of (app w) (id idea))) then w else handler idea w
    | None => w
    end
  else w.

(** The Copy button of the [i]-th idea card; it is never [disabled]. *)
Definition card_copy (i : nat) (w : World) : World :=
  if list_shown (app w) then
    match ideas (app w) !! i with
    | Some idea => onCopy (text idea) w
    | None => w
    end
  else w.

(** The Copy button of the [i]-th row of the saved panel, which has rows
    when [savedIdeas] is an array. *)
Definition saved_copy (i : nat) (w : World) : World :=
  match savedIdeas (app w) with
  | VArr l =>
      match Saved.rows l !! i with
      | Some row => onCopy (Saved.copied row) w
      | None => w
      end
  | _ => w
  end.

Definition handle (w : World) (ev : Event) : World :=
  match ev with
  | ChangeTopic v => upd (setTopic v) w
  | ChangeTone v => if bool_decide (v ∈ tones) then upd (setTone v) w else w
  | ChangeCount v => if bool_decide (v ∈ counts) then upd (setCount v) w else w
  | Submit => if canGenerate (app w) then onGenerate w else w
  | FormSubmit => onGenerate w
  | ClickCopy i => card_copy i w
  | ClickCopySaved i => saved_copy i w
  | ClickSave i => card_button saving i onSave w
  | ClickShare i => card_button sharing i onShare w
  | ClickExport i format =>
      if bool_decide (format ∈ ["txt"; "json"])
      then card_button exporting i (fun idea => onExport idea format) w
      else w
  | Settle env rid o => resume env rid o w
  end.

Definition run (w : World) (evs : list Event) : World :=
  fold_left handle evs w.

(** The states of the mounted component. *)
Inductive reachable : World -> Prop :=
| reach_mount : reachable mount
| reach_handle w ev : reachable w -> reachable (handle w ev).

(** The events that come from the rendered controls and from the promises:
    all but a submit event that bypasses the button. *)
Definition from_controls (ev : Event) : bool :=
  match ev with FormSubmit => false | _ => true end.

(** The states the component reaches when it is operated by its controls
    only. *)
Inductive reachable_by_controls : World -> Prop :=
| controls_mount : reachable_by_controls mount
| controls_handle w ev :
    reachable_by_controls w -> from_controls ev = true ->
    reachable_by_controls (handle w ev).

(** *** In-flight operations *)

Inductive Kind : Type := save | share | export.

#[global] Instance Kind_eq_dec : EqDecision Kind :=
  ltac:(solve_decision).

(** What a suspended handler is busy with. *)
Inductive Tag : Type :=
| TLoad
| TGenerate
| TOp (k : Kind) (i : string)
| TCopy.

#[global] Instance Tag_eq_dec : EqDecision Tag :=
  ltac:(solve_decision).

Definition tag (k : Cont) : Tag :=
  match k with
  | KInitialLoad => TLoad
  | KGenerate _ => TGenerate
  | KSave idea | KSaveRefresh idea => TOp save (id idea)
  | KShare idea | KShareCopy idea => TOp share (id idea)
  | KExport idea _ _ => TOp export (id idea)
  | KCopied => TCopy
  end.

(** The number of suspended handlers with tag [t]. *)
Definition inflight (t : Tag) (p : list (nat * Cont)) : nat :=
  length (List.filter (fun e => bool_decide (tag (snd e) = t)) p).

(** The flag the component keeps for [t]. *)
Definition flagged (t : Tag) (a : State) : bool :=
  match t with
  | TLoad | TCopy => false
  | TGenerate => bool_decide (generationStatus a = loading)
  | TOp save i => on (saving (busy_of a i))
  | TOp share i => on (sharing (busy_of a i))
  | TOp export i => on (exporting (busy_of a i))
  end.

(** The remote save calls among the issued calls that are still in
    flight are those of the suspended [KSave] handlers. *)
Definition saves_in_flight (i : string) (p : list (nat * Cont)) : nat :=
  length (List.filter
            (fun e => match snd e with
                      | KSave idea => bool_decide (id idea = i)
                      | _ => false
                      end) p).

(** The error that reaches the [catch] clause of [onGenerate], if any:
    the rejection of the call, or the [TypeError] of the normalization. *)
Definition generate_failure (env : Env) (count : Z) (o : Outcome)
  : option JsError :=
  match o with
  | Rejected e => Some e
  | Fulfilled result =>
      match normalize env count result with
      | inl e => Some e
      | inr _ => None
      end
  end.

(** The patches the handlers pass to [setIdeaBusy]. *)
Definition patch_of (k : Kind) (b : bool) : Busy :=
  match k with
  | save => mkBusy (Some b) None None
  | share => mkBusy None (Some b) None
  | export => mkBusy None None (Some b)
  end.

(** *** What the [disabled] attributes maintain *)

(** The tags of the operations on a record. *)
Definition is_op (t : Tag) : bool :=
  match t with TOp _ _ => true | _ => false end.

(** Every busy flag counts the suspended handlers it stands for: one when
    it is set, none when it is not. *)
Definition accounted (w : World) : Prop :=
  forall t, is_op t = true ->
    inflight t (pending w) = if flagged t (app w) then 1 else 0.

(** The status is "loading" only while a generate call is awaited. *)
Definition loading_awaited (w : World) : Prop :=
  generationStatus (app w) = loading -> 0 < inflight TGenerate (pending w).

(** The status is "loading" exactly while one generate call is awaited, and
    no second one is. *)
Definition generate_accounted (w : World) : Prop :=
  (generationStatus (app w) = loading -> inflight TGenerate (pending w) = 1)
  /\ (generationStatus (app w) <> loading ->
      inflight TGenerate (pending w) = 0).

(** While the status is "loading" there is no record. *)
Definition cleared_while_loading (w : World) : Prop :=
  generationStatus (app w) = loading -> ideas (app w) = [].

(** Promises are numbered in the order they are created. *)
Definition numbered (w : World) : Prop :=
  Forall (fun e => fst e < next w) (pending w).

Definition consistent (w : World) : Prop :=
  accounted w /\ cleared_while_loading w /\ numbered w.

(** A handler that was just taken out of the pool is still counted by its
    flag. *)
Definition owing (k : Cont) (w : World) : Prop :=
  forall t, is_op t = true ->
    inflight t (pending w) + (if bool_decide (tag k = t) then 1 else 0)
    = if flagged t (app w) then 1 else 0.

End App.

(** ** The wording of the specification, for comparison *)

Module Spec.

Definition nonempty_array (v : value) : bool :=
  match v with VArr (_ :: _) => true | _ => false end.

(** "First non-empty matching field wins, in the fixed priority order
    direct array, ideas, items." *)
Definition first_nonempty (result : value) : value :=
  if nonempty_array result then result
  else if nonempty_array (Js.get result "ideas") then Js.get result "ideas"
  else if nonempty_array (Js.get result "items") then Js.get result "items"
  else VArr [].

(** "Sanitized: strip non-word/space/hyphen characters, truncate to 40
    chars, default to idea if empty." *)
Definition sanitized (topic : string) : string :=
  Str.or_else (Str.slice_to 40 (Str.strip_unsafe topic)) "idea".

End Spec.

(** ** Concrete inputs used in the examples *)

Module Sample.

Definition env (t : Z) : App.Env :=
  App.mkEnv (fun k => (t + Z.of_nat k)%Z) (fun _ => "9f3a7c21d4")
    "2026-01-01T00:00:00.000Z".

Definition ab_array : value := VArr [VStr "a"; VStr "b"].
Definition ab_ideas : value := VObj [("ideas", VArr [VStr "a"; VStr "b"])].
Definition ab_items : value :=
  VObj [("items", VArr [VObj [("text", VStr "a")]; VObj [("text", VStr "b")]])].

(** An empty [ideas] field next to a populated [items] field. *)
Definition empty_ideas_with_items : value :=
  VObj [("ideas", VArr []); ("items", VArr [VObj [("text", VStr "a")]])].

Definition now : App.Env := env 1700000000000.

Definition saved_list : value :=
  VArr [VObj [("id", VStr "r0"); ("text", VStr "an older idea")]].

(** The component after its initial load succeeded and two ideas were
    generated for the topic "coffee shop".  Promise 0 is the initial
    load, promise 1 the generate call. *)
Definition generated : App.World :=
  App.run App.mount
    [App.Settle now 0 (Fulfilled saved_list);
     App.ChangeTopic "coffee shop";
     App.Submit;
     App.Settle now 1 (Fulfilled ab_array)].

Definition first : App.Idea :=
  App.mkIdea "local_1700000000000_9f3a7c21d4" (VStr "a") VUndef None.

(** The first idea is being saved (promise 2). *)
Definition saving_first : App.World := App.run generated [App.ClickSave 0].

(** The save succeeded with identifier "r1"; the refresh (promise 3) is
    in flight. *)
Definition refreshing : App.World :=
  App.run saving_first
    [App.Settle now 2 (Fulfilled (VObj [("id", VStr "r1")]))].

(** The refresh succeeded as well. *)
Definition saved_once : App.World :=
  App.run refreshing [App.Settle now 3 (Fulfilled saved_list)].

(** A second Save of the same record (promise 4), answered with
    identifier "r2". *)
Definition saved_twice : App.World :=
  App.run saved_once
    [App.ClickSave 0;
     App.Settle now 4 (Fulfilled (VObj [("id", VStr "r2")]))].

(** The refresh after the first save failed. *)
Definition refresh_failed : App.World :=
  App.run refreshing
    [App.Settle now 3 (Rejected (new_Error "Failed to fetch"))].

(** A generate call is in flight (promise 1). *)
Definition generating : App.World :=
  App.run App.mount
    [App.Settle now 0 (Fulfilled saved_list);
     App.ChangeTopic "coffee shop";
     App.Submit].

(** The form receives a second submit event while the first call is in
    flight (its button is disabled then, the form's [onSubmit] is not
    guarded): promises 1 and 2. *)
Definition generating_twice : App.World := App.run generating [App.FormSubmit].

(** The second call is answered first, then the first one. *)
Definition newer_applied : App.World :=
  App.run generating_twice
    [App.Settle now 2 (Fulfilled (VArr [VStr "newer"]))].

Definition stale_arrived : App.World :=
  App.run newer_applied
    [App.Settle now 1 (Fulfilled (VArr [VStr "stale"]))].

(** The first call fails instead, after the second one was answered. *)
Definition stale_failed : App.World :=
  App.run newer_applied
    [App.Settle now 1
       (Rejected (new_Error "Request timed out. Please try again."))].

(** Two ideas are on the page and a new generate call was submitted with
    the button (promise 2). *)
Definition generating_again : App.World := App.run generated [App.Submit].

End Sample.

(** ** services/api.js: the URL of a call *)

Module Url.

Definition is_slash (c : ascii) : bool := (nat_of_ascii c =? 47)%nat.

(** [s.replace(/\/+$/, "")]: the run of slashes that ends the string is
    removed. *)
Definition strip_trailing_slashes (s : string) : string :=
  Str.pack (rev (Str.drop_while is_slash (rev (Str.chars s)))).

(** [getApiBaseUrl], as a function of [process.env.REACT_APP_API_BASE_URL]
    ([None] when the variable is not set). *)
Definition getApiBaseUrl (base_url : option string) : string :=
  strip_trailing_slashes
    (match base_url with
     | Some s => Str.or_else s ""
     | None => ""
     end).

(** [path.startsWith("/")] *)
Definition starts_with_slash (path : string) : bool :=
  match path with
  | String c _ => is_slash c
  | EmptyString => false
  end.

Definition buildUrl (base_url : option string) (path : string) : string :=
  let base := getApiBaseUrl base_url in
  if Str.is_empty base then path
  else base +:+ (if starts_with_slash path then "" else "/") +:+ path.

End Url.

(** ** What the component keeps true of its data *)

Module Wf.

Import App.

Definition settings_ok (a : State) : Prop :=
  count a ∈ counts /\ tone a ∈ tones.

(** A record as the component makes them. *)
Definition record_ok (it : Idea) : Prop :=
  (exists rest, id it = "local_" +:+ rest)
  /\ Js.truthy (text it) = true
  /\ (Js.truthy (savedId it) = true <-> is_Some (savedAt it)).

(** The count a suspended generate handler slices with. *)
Definition closure_ok (k : Cont) : Prop :=
  match k with
  | KGenerate c => c ∈ counts
  | _ => True
  end.

(** A call as the component in state [w] issues it. *)
Definition issued (w : World) (c : Api.Call) : Prop :=
  match c with
  | Api.generateIdeas t tn n =>
      t = Str.trim (topic (app w))
      /\ 3 <= String.length t
      /\ tn = tone (app w)
      /\ n = count (app w)
  | Api.saveIdea t x =>
      t = Str.trim (topic (app w))
      /\ exists idea, idea ∈ ideas (app w) /\ x = text idea
  | Api.listSavedIdeas => True
  | Api.shareIdea i =>
      Js.truthy i = true
      /\ exists idea, idea ∈ ideas (app w) /\ i = savedId idea
  | Api.exportIdea i format =>
      Js.truthy i = true
      /\ format ∈ ["txt"; "json"]
      /\ exists idea, idea ∈ ideas (app w) /\ i = savedId idea
  end.

(** A call that passed the checks of the component. *)
Definition call_ok (c : Api.Call) : Prop :=
  match c with
  | Api.generateIdeas t tn n =>
      Str.trim t = t /\ 3 <= String.length t /\ tn ∈ tones /\ n ∈ counts
  | Api.saveIdea t x => Str.trim t = t /\ Js.truthy x = true
  | Api.listSavedIdeas => True
  | Api.shareIdea i => Js.truthy i = true
  | Api.exportIdea i format => Js.truthy i = true /\ format ∈ ["txt"; "json"]
  end.

Definition wholesome (w : World) : Prop :=
  settings_ok (app w)
  /\ Forall record_ok (ideas (app w))
  /\ length (ideas (app w)) <= 12
  /\ Forall (fun e => closure_ok (snd e)) (pending w)
  /\ Forall call_ok (network w).

End Wf.

(** * Properties *)

Import App.

(** ** The helpers on concrete inputs *)

Example trim_ex : Str.trim "  coffee shop  " = "coffee shop".
Proof. reflexivity. Qed.

Example slice_last_ex : Str.slice_last 6 "local_17_abcdef12" = "cdef12".
Proof. reflexivity. Qed.

Example of_Z_ex :
  Str.of_Z 404 = "404" /\ Str.of_Z 0 = "0" /\ Str.of_Z (-3) = "-3".
Proof. repeat split; reflexivity. Qed.

Example to_string_ex :
  Js.to_string (VArr [VNum 1; VNull; VStr "x"; VObj []])
  = Some "1,,x,[object Object]".
Proof. reflexivity. Qed.

Example to_string_throws :
  Js.to_string (VObj [("toString", VNum 1)]) = None
  /\ Js.to_string (VArr [VStr "a"; VObj [("toString", VNull)]]) = None.
Proof. split; reflexivity. Qed.

(** The topic is cut to 40 characters before the unsafe characters are
    removed: of 41 characters the last is dropped, then the leading "!" is
    stripped, and 39 remain. *)
Example safeName_cuts_then_strips :
  String.length (safeName "!aaaaaaaaaaaaaaaaaaaaaaaaaaaaaaaaaaaaaaaa") = 39.
Proof. reflexivity. Qed.

Example link_of_a_string : response_url (VStr "ok") = VNative "link".
Proof. reflexivity. Qed.

Example safeName_ex :
  safeName "  Hello, World! & more  " = "Hello World  more"
  /\ safeName "?!" = "idea" /\ safeName "" = "idea".
Proof. repeat split; reflexivity. Qed.

(** ** Truthiness *)

Lemma or_truthy a b : Js.truthy a = true -> Js.or a b = a.
Proof. unfold Js.or. by intros ->. Qed.

Lemma or_falsy a b : Js.truthy a = false -> Js.or a b = b.
Proof. unfold Js.or. by intros ->. Qed.

Lemma or_else_nonempty a b : b <> "" -> Str.or_else a b <> "".
Proof. unfold Str.or_else. destruct a; cbn; congruence. Qed.

(** ** The transport *)

Section TransportFacts.

Variable JSON_parse : string -> option value.

(** The parsed body of a failed response is never the empty text: an
    empty text is replaced by [null] before parsing is attempted. *)
Lemma raw_text_body_nonempty text :
  JSON_parse text = None ->
  Api.safeParseBody JSON_parse text = VStr text -> text <> "".
Proof.
  unfold Api.safeParseBody. destruct text; cbn; [discriminate | congruence].
Qed.






End TransportFacts.



Example request_raw_text :
  Api.request (fun _ => None) (Api.Responded 502 "Bad Gateway")
  = Rejected (mkJsError "Error" "Bad Gateway" (Some 502%Z) (VStr "Bad Gateway")).
Proof. reflexivity. Qed.

Example request_generic :
  Api.request (fun _ => None) (Api.Responded 500 "")
  = Rejected (mkJsError "Error" "Request failed with status 500"
                (Some 500%Z) VNull).
Proof. reflexivity. Qed.

(** ** The response normalizer *)

Lemma pick_list_array result :
  Js.is_array result = true -> pick_list result = result.
Proof. destruct result; cbn; try discriminate. reflexivity. Qed.

Lemma pick_list_not_array result :
  Js.is_array result = false ->
  pick_list result
  = Js.or (Js.or (Js.get result "ideas") (Js.get result "items")) (VArr []).
Proof.
  intros H. unfold pick_list. rewrite H.
  rewrite (or_falsy (Js.and _ _)); reflexivity.
Qed.

Lemma kept_texts_truthy count l t :
  In t (kept_texts count l) -> Js.truthy t = true.
Proof.
  unfold kept_texts. intros H.
  apply list_elem_of_In, elem_of_take in H as (i & H & _).
  apply list_elem_of_lookup_2, list_elem_of_In, filter_In in H. tauto.
Qed.

Lemma slice_end_nonzero count : count <> 0%Z -> slice_end count = Z.max 1 count.
Proof.
  intros H. unfold slice_end. destruct (Z.eqb_spec count 0); [done | reflexivity].
Qed.

Lemma normalize_texts env count result l :
  pick_list result = VArr l ->
  exists records,
    normalize env count result = inr records
    /\ map text records = kept_texts count l
    /\ map id records = map (makeLocalId env) (seq 0 (length records)).
Proof.
  intros H. unfold normalize. rewrite H. eexists. split; [reflexivity |].
  generalize (kept_texts count l). intros ts.
  unfold fresh_idea. split.
  - change (text <$> imap (fun k t => mkIdea (makeLocalId env k) t VUndef None) ts = ts).
    rewrite fmap_imap. apply list_eq. intros i. rewrite list_lookup_imap.
    by destruct (ts !! i).
  - rewrite length_imap.
    change (id <$> imap (fun k t => mkIdea (makeLocalId env k) t VUndef None) ts
            = makeLocalId env <$> seq 0 (length ts)).
    rewrite fmap_imap. unfold compose. cbn.
    apply list_eq. intros i. rewrite list_lookup_imap, list_lookup_fmap.
    destruct (ts !! i) eqn:Hi; cbn.
    + rewrite lookup_seq_lt by (by eapply lookup_lt_Some). reflexivity.
    + rewrite lookup_seq_ge by (by apply lookup_ge_None). reflexivity.
Qed.

(** C4, as the code has it.  The three shapes of the specification's
    example normalize to the same records, two of them for a count of at
    least 2.  The list is chosen by truthiness, not by emptiness: a direct
    array wins, else a truthy [ideas] field, else a truthy [items] field,
    else the empty list.  An item that is not a string and has neither a
    truthy [text] nor a truthy [idea] becomes the empty string, and no falsy
    text is kept.  For a count other than 0 the kept texts are the first
    [max(1, count)] of the mapped and filtered items, and they are the texts
    of the records. *)
Theorem normalizer_first_truthy_field_wins env count :
  (normalize env count Sample.ab_array = normalize env count Sample.ab_ideas
   /\ normalize env count Sample.ab_array = normalize env count Sample.ab_items
   /\ ((2 <= count)%Z ->
       normalize env count Sample.ab_array
       = inr [fresh_idea env 0 (VStr "a"); fresh_idea env 1 (VStr "b")]))
  /\ (forall result,
        (Js.is_array result = true -> pick_list result = result)
        /\ (Js.is_array result = false ->
            Js.truthy (Js.get result "ideas") = true ->
            pick_list result = Js.get result "ideas")
        /\ (Js.is_array result = false ->
            Js.truthy (Js.get result "ideas") = false ->
            Js.truthy (Js.get result "items") = true ->
            pick_list result = Js.get result "items")
        /\ (Js.is_array result = false ->
            Js.truthy (Js.get result "ideas") = false ->
            Js.truthy (Js.get result "items") = false ->
            pick_list result = VArr []))
  /\ (forall item,
        Js.is_string item = false ->
        Js.truthy (Js.get item "text") = false ->
        Js.truthy (Js.get item "idea") = false ->
        item_text item = VStr "")
  /\ (forall l t, In t (kept_texts count l) -> Js.truthy t = true)
  /\ (forall l, count <> 0%Z ->
        kept_texts count l
        = take (Z.to_nat (Z.max 1 count))
            (List.filter Js.truthy (map item_text l)))
  /\ (forall result l, pick_list result = VArr l ->
        exists records,
          normalize env count result = inr records
          /\ map text records = kept_texts count l).
Proof.
  split; [| split; [| split; [| split; [| split]]]].
  - split; [reflexivity |]. split; [reflexivity |].
    intros H. unfold normalize, kept_texts. cbn.
    assert (slice_end count = count) as ->.
    { unfold slice_end. destruct (Z.eqb_spec count 0); lia. }
    destruct (Z.to_nat count) as [| [| [| n]]] eqn:E;
      [lia | lia | reflexivity | reflexivity].
  - intros result. split; [apply pick_list_array |].
    split; [| split]; intros Ha Hi; rewrite (pick_list_not_array _ Ha).
    + by rewrite (or_truthy _ _ Hi), (or_truthy _ _ Hi).
    + intros Ht. by rewrite (or_falsy _ _ Hi), (or_truthy _ _ Ht).
    + intros Ht. by rewrite (or_falsy _ _ Hi), (or_falsy _ _ Ht).
  - intros item Hs Ht Hi. unfold item_text. rewrite Hs.
    by rewrite (or_falsy _ _ Ht), (or_falsy _ _ Hi).
  - apply kept_texts_truthy.
  - intros l H. unfold kept_texts. by rewrite slice_end_nonzero.
  - intros result l H.
    destruct (normalize_texts env count result l H) as (r & Hr & Ht & _).
    eauto.
Qed.

Lemma normalizer_first_truthy_field_wins_witness :
  (2 <= 6)%Z
  /\ normalize (Sample.env 1700000000000) 6 Sample.ab_items
     = inr [mkIdea "local_1700000000000_9f3a7c21d4" (VStr "a") VUndef None;
            mkIdea "local_1700000000001_9f3a7c21d4" (VStr "b") VUndef None].
Proof.
  split; [lia |].
  destruct (normalizer_first_truthy_field_wins (Sample.env 1700000000000) 6)
    as ((_ & <- & H) & _).
  rewrite H by lia. reflexivity.
Defined.

(** C4 as stated fails: with an empty [ideas] field next to a populated
    [items] field, the first non-empty field is [items], yet the component
    takes the empty [ideas] list and produces no record. *)
Lemma first_nonempty_field_wins_counterexample :
  Spec.first_nonempty Sample.empty_ideas_with_items
  = VArr [VObj [("text", VStr "a")]]
  /\ pick_list Sample.empty_ideas_with_items = VArr []
  /\ normalize (Sample.env 0) 6 Sample.empty_ideas_with_items = inr [].
Proof. repeat split; reflexivity. Qed.

(** ** Strings: what trimming, slicing and stripping preserve *)

Lemma chars_pack l : Str.chars (Str.pack l) = l.
Proof. apply list_ascii_of_string_of_list_ascii. Qed.

Lemma string_length_chars s : String.length s = length (Str.chars s).
Proof. induction s as [| c s IH]; cbn; [done | by rewrite IH]. Qed.

Lemma drop_while_Forall (P : ascii -> Prop) p l :
  Forall P l -> Forall P (Str.drop_while p l).
Proof.
  induction 1 as [| c l Hc Hl IH]; cbn; [constructor |].
  destruct (p c); [exact IH | by constructor].
Qed.

Lemma drop_while_length p l : length (Str.drop_while p l) <= length l.
Proof.
  induction l as [| c l IH]; cbn; [lia |]. destruct (p c); cbn; lia.
Qed.

Lemma trim_chars_Forall (P : ascii -> Prop) l :
  Forall P l -> Forall P (Str.trim_chars l).
Proof.
  intros H. unfold Str.trim_chars.
  by apply List.Forall_rev, drop_while_Forall, List.Forall_rev, drop_while_Forall.
Qed.

Lemma trim_chars_length l : length (Str.trim_chars l) <= length l.
Proof.
  unfold Str.trim_chars. rewrite length_rev.
  etrans; [apply drop_while_length |]. rewrite length_rev.
  apply drop_while_length.
Qed.

Lemma strip_unsafe_keeps s :
  Forall (fun c => Str.keeps c = true) (Str.chars (Str.strip_unsafe s)).
Proof.
  unfold Str.strip_unsafe. rewrite chars_pack. apply List.Forall_forall.
  intros c Hc. by apply filter_In in Hc as [_ Hc].
Qed.

Lemma strip_unsafe_length s :
  length (Str.chars (Str.strip_unsafe s)) <= length (Str.chars s).
Proof. unfold Str.strip_unsafe. rewrite chars_pack. apply filter_length_le. Qed.

Lemma slice_to_length n s : length (Str.chars (Str.slice_to n s)) <= n.
Proof. unfold Str.slice_to. rewrite chars_pack, length_take. lia. Qed.

Lemma safeName_cases t :
  safeName t = "idea"
  \/ (safeName t
      = Str.trim (Str.strip_unsafe (Str.slice_to 40 (Str.trim t)))
      /\ safeName t <> "").
Proof.
  unfold safeName. destruct (Str.is_empty (Str.trim t)) eqn:E.
  - left. unfold Str.or_else at 2. rewrite E. reflexivity.
  - assert (Str.or_else (Str.trim t) "idea" = Str.trim t) as ->
      by (unfold Str.or_else; by rewrite E).
    destruct (Str.trim (Str.strip_unsafe (Str.slice_to 40 (Str.trim t))))
      as [| c s]; [by left | by right].
Qed.

Lemma safeName_cut t :
  let cut := Str.trim (Str.strip_unsafe (Str.slice_to 40 (Str.trim t))) in
  (cut = "" -> safeName t = "idea") /\ (cut <> "" -> safeName t = cut).
Proof.
  intros cut. subst cut. unfold safeName.
  destruct (Str.is_empty (Str.trim t)) eqn:E.
  - unfold Str.or_else at 2. rewrite E. split; [reflexivity |].
    destruct (Str.trim t); [| discriminate]. intros Hc. by destruct Hc.
  - assert (Str.or_else (Str.trim t) "idea" = Str.trim t) as ->
      by (unfold Str.or_else; by rewrite E).
    split.
    + by intros ->.
    + intros Hc. unfold Str.or_else.
      destruct (Str.trim (Str.strip_unsafe (Str.slice_to 40 (Str.trim t))));
        [done | reflexivity].
Qed.

Lemma safeName_sanitized t :
  Forall (fun c => Str.keeps c = true) (Str.chars (safeName t))
  /\ String.length (safeName t) <= 40
  /\ safeName t <> "".
Proof.
  destruct (safeName_cases t) as [-> | [E Hne]].
  - split; [| split; [cbn; lia | done]].
    repeat constructor.
  - rewrite E in *. split; [| split; [| done]].
    + unfold Str.trim at 1. rewrite chars_pack.
      apply trim_chars_Forall, strip_unsafe_keeps.
    + rewrite string_length_chars. unfold Str.trim at 1. rewrite chars_pack.
      etrans; [apply trim_chars_length |].
      etrans; [apply strip_unsafe_length |]. apply slice_to_length.
Qed.

(** ** Share and Export on a record that is not saved *)

(** C5. Share on a record without a remote identifier sets the record's
    error to the not-saved message and does nothing else: no call is issued,
    no handler is left suspended, nothing is copied, and the records and
    busy flags are unchanged.  The same holds for a click on the Share
    button of such a record. *)
Theorem share_unsaved_fails_locally w idea :
  Js.truthy (savedId idea) = false ->
  let w' := onShare idea w in
  errorByIdeaId (app w') !! id idea = Some "Save the idea before sharing."
  /\ network w' = network w
  /\ pending w' = pending w
  /\ clipboard w' = clipboard w
  /\ ideas (app w') = ideas (app w)
  /\ busyByIdeaId (app w') = busyByIdeaId (app w)
  /\ (forall i, ideas (app w) !! i = Some idea ->
        network (handle w (ClickShare i)) = network w
        /\ pending (handle w (ClickShare i)) = pending w
        /\ ideas (app (handle w (ClickShare i))) = ideas (app w)).
Proof.
  intros H w'. subst w'. unfold onShare. rewrite H. cbn.
  rewrite lookup_insert_eq. repeat split; try reflexivity.
  all: unfold card_button; destruct (list_shown (app w)); try reflexivity;
    rewrite H0; destruct (on _); try reflexivity;
    unfold onShare; rewrite H; reflexivity.
Qed.

(** C6. Export of a record without a remote identifier.  With format txt
    it hands to the download helper the record's text under the name
    [safeName-last6.txt], where [last6] is the last six characters of the
    local id, and issues no call; when the text cannot be converted to a
    string the helper throws and nothing happens.  [safeName] is the topic
    trimmed, cut to its first 40 characters, stripped of every character
    that is not a word character, a space or a hyphen, and trimmed again, in
    this order, and is "idea" exactly when that is empty; so it is never
    empty, is at most 40 characters long, and has only such characters.
    With format md the export downloads nothing, issues no call, and sets
    the record's error to the not-saved message. *)
Theorem export_unsaved_txt_and_md w idea :
  Js.truthy (savedId idea) = false ->
  let cut := Str.trim (Str.strip_unsafe
                         (Str.slice_to 40 (Str.trim (topic (app w))))) in
  let name := safeName (topic (app w)) in
  let wt := onExport idea "txt" w in
  let wm := onExport idea "md" w in
  ((Js.converts (text idea) = true ->
    downloads wt
    = (downloads w
       ++ [mkDownload
             (VStr ((name +:+ "-" +:+ Str.slice_last 6 (id idea)) +:+ ".txt"))
             (Verbatim (text idea)) (VStr "text/plain;charset=utf-8")])%list)
   /\ (Js.converts (text idea) = false -> wt = w)
   /\ network wt = network w
   /\ pending wt = pending w
   /\ ideas (app wt) = ideas (app w))
  /\ ((cut = "" -> name = "idea")
      /\ (cut <> "" -> name = cut)
      /\ name <> ""
      /\ Forall (fun c => Str.keeps c = true) (Str.chars name)
      /\ String.length name <= 40)
  /\ (downloads wm = downloads w
      /\ network wm = network w
      /\ pending wm = pending w
      /\ ideas (app wm) = ideas (app w)
      /\ errorByIdeaId (app wm) !! id idea
         = Some "Save the idea before exporting in this format.").
Proof.
  intros H cut name wt wm. subst wt wm. unfold onExport. rewrite H. cbn.
  unfold local_export, downloadable. cbn. rewrite !andb_true_r.
  split; [| split].
  - destruct (Js.converts (text idea)); by repeat split.
  - destruct (safeName_sanitized (topic (app w))) as (Hk & Hl & Hne).
    destruct (safeName_cut (topic (app w))) as [Hd Hc].
    by repeat split.
  - rewrite lookup_insert_eq. by repeat split.
Qed.

(** ** Save: the topic that is sent *)

(** C10. [onSave] sends the trimmed topic of the state it is invoked in.
    In particular, when the topic field is edited to [edited] and the Save
    button of a record is then clicked, the call carries the trimmed
    [edited] and the record's text, whatever topic the record was generated
    for. *)
Theorem save_sends_current_topic w idea :
  network (onSave idea w)
  = (network w ++ [Api.saveIdea (Str.trim (topic (app w))) (text idea)])%list
  /\ (forall edited i,
        list_shown (app w) = true ->
        ideas (app w) !! i = Some idea ->
        on (saving (busy_of (app w) (id idea))) = false ->
        network (run w [ChangeTopic edited; ClickSave i])
        = (network w ++ [Api.saveIdea (Str.trim edited) (text idea)])%list).
Proof.
  split; [reflexivity |].
  intros edited i Hs Hi Hb.
  change (run w [ChangeTopic edited; ClickSave i])
    with (card_button saving i onSave (upd (setTopic edited) w)).
  unfold card_button.
  assert (list_shown (app (upd (setTopic edited) w)) = true) as -> by exact Hs.
  assert (ideas (app (upd (setTopic edited) w)) !! i = Some idea) as ->
    by exact Hi.
  assert (on (saving (busy_of (app (upd (setTopic edited) w)) (id idea)))
          = false) as -> by exact Hb.
  reflexivity.
Qed.

Lemma share_unsaved_fails_locally_witness :
  Js.truthy (savedId Sample.first) = false
  /\ errorByIdeaId (app (onShare Sample.first Sample.generated))
     !! id Sample.first = Some "Save the idea before sharing."
  /\ network (onShare Sample.first Sample.generated)
     = network Sample.generated.
Proof.
  split; [reflexivity |].
  destruct (share_unsaved_fails_locally Sample.generated Sample.first eq_refl)
    as (He & Hn & _).
  split; [exact He | exact Hn].
Defined.

(** With the topic "?!" nothing is left of the topic and the name falls back
    to "idea". *)
Lemma export_unsaved_txt_and_md_witness :
  let w := run Sample.generated [ChangeTopic "?!"] in
  Js.truthy (savedId Sample.first) = false
  /\ Js.converts (text Sample.first) = true
  /\ safeName (topic (app w)) = "idea"
  /\ downloads (onExport Sample.first "txt" w)
     = [mkDownload (VStr "idea-7c21d4.txt") (Verbatim (VStr "a"))
          (VStr "text/plain;charset=utf-8")]
  /\ downloads (onExport Sample.first "md" w) = [].
Proof.
  intros w. split; [reflexivity |]. split; [reflexivity |].
  destruct (export_unsaved_txt_and_md w Sample.first eq_refl)
    as ((Ht & _) & (Hd & _) & (Hm & _)).
  split; [apply Hd; reflexivity |].
  rewrite (Ht eq_refl), Hm. split; reflexivity.
Defined.

(** The specification strips and then truncates; the code truncates and then
    strips.  On a topic of 40 question marks followed by "abc" the first
    gives "abc" and the code, which finds nothing left of the first 40
    characters, gives "idea". *)
Lemma export_name_strip_then_truncate_counterexample :
  let t := "????????????????????????????????????????abc" in
  let w := run Sample.generated [ChangeTopic t] in
  Js.truthy (savedId Sample.first) = false
  /\ Spec.sanitized t = "abc"
  /\ safeName t = "idea"
  /\ downloads (handle w (ClickExport 0 "txt"))
     = [mkDownload (VStr "idea-7c21d4.txt") (Verbatim (VStr "a"))
          (VStr "text/plain;charset=utf-8")].
Proof. repeat split; reflexivity. Qed.

Lemma save_sends_current_topic_witness :
  (list_shown (app Sample.generated) = true
   /\ ideas (app Sample.generated) !! 0%nat = Some Sample.first
   /\ on (saving (busy_of (app Sample.generated) (id Sample.first))) = false)
  /\ network (run Sample.generated [ChangeTopic " tea house "; ClickSave 0])
     = [Api.listSavedIdeas;
        Api.generateIdeas "coffee shop" "Creative" 6;
        Api.saveIdea "tea house" (VStr "a")].
Proof.
  assert (list_shown (app Sample.generated) = true
          /\ ideas (app Sample.generated) !! 0%nat = Some Sample.first
          /\ on (saving (busy_of (app Sample.generated) (id Sample.first)))
             = false) as H
    by (repeat split; vm_compute; reflexivity).
  split; [exact H |]. destruct H as (Hs & Hi & Hb).
  destruct (save_sends_current_topic Sample.generated Sample.first) as [_ H].
  rewrite (H " tea house " 0%nat Hs Hi Hb). vm_compute. reflexivity.
Defined.

(** ** The pool of suspended handlers *)

Lemma take_pending_Forall (P : nat * Cont -> Prop) rid p k rest :
  take_pending rid p = Some (k, rest) -> Forall P p -> Forall P rest.
Proof.
  revert rest. induction p as [| [r c] p IH]; intros rest; cbn; [done |].
  destruct (Nat.eqb r rid).
  - intros [= <- <-] H. by inversion H.
  - destruct (take_pending rid p) as [[k' q] |]; [| done].
    intros [= <- <-] H. inversion H; subst. constructor; [done |].
    by apply IH.
Qed.

Lemma take_pending_last rid k p :
  Forall (fun e => fst e < rid) p ->
  take_pending rid (p ++ [(rid, k)]) = Some (k, p).
Proof.
  induction 1 as [| [r c] p Hr Hp IH]; cbn.
  - by rewrite Nat.eqb_refl.
  - cbn in Hr. destruct (Nat.eqb_spec r rid); [lia |]. by rewrite IH.
Qed.

Lemma resume_pending env rid o w k rest :
  take_pending rid (pending w) = Some (k, rest) ->
  resume env rid o w = run_cont env k o (set_pending rest w).
Proof. unfold resume. by intros ->. Qed.

(** ** Save on a record that is already saved *)

Lemma mark_saved_id env target newId it :
  id (mark_saved env target newId it) = id it
  /\ text (mark_saved env target newId it) = text it.
Proof. unfold mark_saved. by destruct (String.eqb (id it) target). Qed.

(** C3, as the code has it.  When a Save of a record succeeds, no error is
    set and the success notice is shown; every record keeps its local id
    and its text, and a record that had a remote identifier still has one.
    The saved record's identifier becomes the identifier found in the new
    response when there is one, and is kept when the response carries
    none; a record saved for the first time with no identifier in the
    response takes its local id.  The other records are unchanged. *)
Theorem resave_takes_identifier_of_response env rid idea rest data w :
  take_pending rid (pending w) = Some (KSave idea, rest) ->
  let w' := resume env rid (Fulfilled data) w in
  errorByIdeaId (app w') = errorByIdeaId (app w)
  /\ notice (app w') = Some (mkNotice "success" "Saved.")
  /\ forall i it, ideas (app w) !! i = Some it ->
       exists it',
         ideas (app w') !! i = Some it'
         /\ id it' = id it
         /\ text it' = text it
         /\ (Js.truthy (savedId it) = true -> Js.truthy (savedId it') = true)
         /\ (id it <> id idea -> it' = it)
         /\ (id it = id idea -> Js.truthy (response_id data) = true ->
             savedId it' = response_id data)
         /\ (id it = id idea -> Js.truthy (response_id data) = false ->
             Js.truthy (savedId it) = true -> savedId it' = savedId it)
         /\ (id it = id idea -> Js.truthy (response_id data) = false ->
             Js.truthy (savedId it) = false -> savedId it' = VStr (id it)).
Proof.
  intros Hp w'. subst w'. rewrite (resume_pending _ _ _ _ _ _ Hp). cbn.
  split; [reflexivity |]. split; [reflexivity |].
  intros i it Hi. exists (mark_saved env (id idea) (response_id data) it).
  split; [by rewrite list_lookup_fmap, Hi |].
  destruct (mark_saved_id env (id idea) (response_id data) it) as [-> ->].
  split; [reflexivity |]. split; [reflexivity |].
  unfold mark_saved. destruct (String.eqb_spec (id it) (id idea)) as [E | E]; cbn.
  - split; [| split; [done | split; [| split]]].
    + intros Hs. destruct (Js.truthy (response_id data)) eqn:Hr.
      * by rewrite (or_truthy _ _ Hr), (or_truthy _ _ Hr).
      * by rewrite (or_falsy _ _ Hr), (or_truthy _ _ Hs).
    + intros _ Hr. by rewrite (or_truthy _ _ Hr), (or_truthy _ _ Hr).
    + intros _ Hr Hs. by rewrite (or_falsy _ _ Hr), (or_truthy _ _ Hs).
    + intros _ Hr Hs. by rewrite (or_falsy _ _ Hr), (or_falsy _ _ Hs).
  - by repeat split.
Qed.

Lemma resave_takes_identifier_of_response_witness :
  take_pending 4 (pending (run Sample.saved_once [ClickSave 0]))
  = Some (KSave (mkIdea "local_1700000000000_9f3a7c21d4" (VStr "a")
                   (VStr "r1") (Some "2026-01-01T00:00:00.000Z")), [])
  /\ errorByIdeaId (app Sample.saved_twice)
     = errorByIdeaId (app (run Sample.saved_once [ClickSave 0])).
Proof.
  assert (take_pending 4 (pending (run Sample.saved_once [ClickSave 0]))
          = Some (KSave (mkIdea "local_1700000000000_9f3a7c21d4" (VStr "a")
                           (VStr "r1") (Some "2026-01-01T00:00:00.000Z")), []))
    as H by (vm_compute; reflexivity).
  split; [exact H |].
  exact (proj1 (resave_takes_identifier_of_response Sample.now 4 _ _
                  (VObj [("id", VStr "r2")]) _ H)).
Defined.

(** C3 as stated fails: the record saved under "r1" is saved a second
    time, the second response names "r2", and the record's remote
    identifier is replaced; neither save set an error. *)
Lemma second_save_changes_identifier_counterexample :
  savedId <$> ideas (app Sample.saved_once) !! 0%nat = Some (VStr "r1")
  /\ savedId <$> ideas (app Sample.saved_twice) !! 0%nat = Some (VStr "r2")
  /\ errorByIdeaId (app Sample.saved_twice) !! id Sample.first = Some ""
  /\ savedId <$> ideas (app Sample.saved_twice) !! 0%nat
     <> savedId <$> ideas (app Sample.saved_once) !! 0%nat.
Proof. repeat split; vm_compute; congruence. Qed.

(** ** The refresh of the saved view after a save *)

(** C8, as the code has it.  A successful Save issues the listing call;
    when that call fails the failure is swallowed: the saved view, its
    status and its error are what they were before the save response, the
    records keep the outcome of the save, and the save handler is done. *)
Theorem refresh_failure_after_save_is_ignored env env' rid idea rest data e w :
  Forall (fun p => fst p < next w) (pending w) ->
  take_pending rid (pending w) = Some (KSave idea, rest) ->
  let w1 := resume env rid (Fulfilled data) w in
  let w2 := resume env' (next w) (Rejected e) w1 in
  network w1 = (network w ++ [Api.listSavedIdeas])%list
  /\ pending w1 = (rest ++ [(next w, KSaveRefresh idea)])%list
  /\ savedIdeas (app w2) = savedIdeas (app w)
  /\ savedStatus (app w2) = savedStatus (app w)
  /\ savedError (app w2) = savedError (app w)
  /\ ideas (app w2)
     = map (mark_saved env (id idea) (response_id data)) (ideas (app w))
  /\ pending w2 = rest
  /\ network w2 = network w1.
Proof.
  intros Hf Hp w1 w2. subst w2 w1.
  rewrite (resume_pending _ _ _ _ _ _ Hp). cbn.
  split; [reflexivity |]. split; [reflexivity |].
  unfold resume. cbn.
  rewrite take_pending_last by (by eapply take_pending_Forall).
  cbn. by repeat split.
Qed.

Lemma refresh_failure_after_save_is_ignored_witness :
  (Forall (fun p => fst p < next Sample.saving_first)
     (pending Sample.saving_first)
   /\ take_pending 2 (pending Sample.saving_first)
      = Some (KSave Sample.first, []))
  /\ savedIdeas (app Sample.refresh_failed) = Sample.saved_list
  /\ savedStatus (app Sample.refresh_failed) = success.
Proof.
  assert (Forall (fun p => fst p < next Sample.saving_first)
            (pending Sample.saving_first)) as Hf
    by (vm_compute; repeat constructor).
  assert (take_pending 2 (pending Sample.saving_first)
          = Some (KSave Sample.first, [])) as Hp by (vm_compute; reflexivity).
  split; [by split |].
  destruct (refresh_failure_after_save_is_ignored Sample.now Sample.now 2 _ _
              (VObj [("id", VStr "r1")]) (new_Error "Failed to fetch")
              _ Hf Hp) as (_ & _ & Hi & Hs & _).
  split.
  - etrans; [exact Hi |]. vm_compute. reflexivity.
  - etrans; [exact Hs |]. vm_compute. reflexivity.
Defined.

(** C8 as stated fails: the refresh after a successful save is rejected,
    and the status of the saved view is still "success", not "error"; the
    panel goes on showing the count, not "Unavailable". *)
Lemma refresh_failure_marks_unavailable_counterexample :
  savedStatus (app Sample.refreshing) = success
  /\ savedStatus (app Sample.refresh_failed) = success
  /\ savedStatus (app Sample.refresh_failed) <> error
  /\ savedError (app Sample.refresh_failed) = ""
  /\ savedId <$> ideas (app Sample.refresh_failed) !! 0%nat = Some (VStr "r1").
Proof. repeat split; vm_compute; congruence. Qed.

(** ** Flags and suspended handlers *)

Lemma inflight_snoc t p n k :
  inflight t (p ++ [(n, k)])
  = inflight t p + (if bool_decide (tag k = t) then 1 else 0).
Proof.
  unfold inflight. rewrite List.filter_app, length_app. cbn.
  by destruct (bool_decide (tag k = t)).
Qed.

Lemma inflight_take t rid p k rest :
  take_pending rid p = Some (k, rest) ->
  inflight t p = inflight t rest + (if bool_decide (tag k = t) then 1 else 0).
Proof.
  revert rest. induction p as [| [r c] p IH]; intros rest; cbn; [done |].
  destruct (Nat.eqb r rid).
  - intros [= <- <-]. unfold inflight. cbn.
    destruct (bool_decide (tag c = t)); cbn; lia.
  - destruct (take_pending rid p) as [[k' q] |]; [| done].
    intros [= <- <-]. specialize (IH _ eq_refl). unfold inflight in *. cbn.
    destruct (bool_decide (tag c = t)); cbn; lia.
Qed.

Lemma busy_of_setIdeaBusy i j patch a :
  busy_of (setIdeaBusy i patch a) j
  = if decide (i = j) then spread (busy_of a i) patch else busy_of a j.
Proof.
  unfold busy_of at 1. cbn. destruct (decide (i = j)) as [-> | Hne].
  - by rewrite lookup_insert_eq.
  - by rewrite lookup_insert_ne.
Qed.

Lemma flagged_patch t k i b a :
  flagged t (setIdeaBusy i (patch_of k b) a)
  = if bool_decide (t = TOp k i) then b else flagged t a.
Proof.
  destruct t as [| | k' j |]; [done | done | | done].
  unfold flagged. rewrite busy_of_setIdeaBusy.
  destruct (decide (i = j)) as [-> | Hne].
  - destruct k, k'; cbn; try (rewrite bool_decide_eq_true_2 by done; done);
      rewrite bool_decide_eq_false_2 by congruence;
      by destruct (busy_of a j) as [[] [] []].
  - rewrite bool_decide_eq_false_2 by congruence. by destruct k'.
Qed.

(** A state update that does not touch [busyByIdeaId] leaves every busy
    flag as it is. *)
Ltac neutral :=
  let t := fresh "t" in
  let Ht := fresh "Ht" in
  intros t Ht; destruct t as [| | [] ? |]; try discriminate Ht; reflexivity.

Lemma accounted_frame w w' :
  pending w' = pending w ->
  (forall t, is_op t = true -> flagged t (app w') = flagged t (app w)) ->
  accounted w -> accounted w'.
Proof. intros Hp Hf H t Ht. rewrite Hp, Hf by done. by apply H. Qed.

Lemma owing_take w rid k rest :
  accounted w -> take_pending rid (pending w) = Some (k, rest) ->
  owing k (set_pending rest w).
Proof.
  intros H Hp t Ht. cbn [pending app set_pending].
  rewrite <- (inflight_take t _ _ _ _ Hp). by apply H.
Qed.

(** The handler suspends again, under the same tag. *)
Lemma owing_await k k' w w' :
  tag k' = tag k ->
  pending w' = (pending w ++ [(next w, k')])%list ->
  (forall t, is_op t = true -> flagged t (app w') = flagged t (app w)) ->
  owing k w -> accounted w'.
Proof.
  intros Ht Hp Hf H t Hne. rewrite Hp, Hf, inflight_snoc, Ht by done.
  by apply H.
Qed.

(** The handler of an operation ends: its [finally] clears the flag. *)
Lemma owing_finish K k i w w' :
  tag K = TOp k i ->
  pending w' = pending w ->
  (forall t, is_op t = true ->
             flagged t (app w')
             = if bool_decide (t = TOp k i) then false else flagged t (app w)) ->
  owing K w -> accounted w'.
Proof.
  intros Ht Hp Hf H t Hne. rewrite Hp, Hf by done. specialize (H t Hne).
  rewrite Ht in H. destruct (decide (t = TOp k i)) as [-> | Hd].
  - rewrite bool_decide_eq_true_2 in * by done.
    destruct (flagged (TOp k i) (app w)); lia.
  - rewrite bool_decide_eq_false_2 by done.
    rewrite bool_decide_eq_false_2 in H by congruence. lia.
Qed.

(** A handler that stands for no busy flag ends. *)
Lemma owing_other K w w' :
  is_op (tag K) = false ->
  pending w' = pending w ->
  (forall t, is_op t = true -> flagged t (app w') = flagged t (app w)) ->
  owing K w -> accounted w'.
Proof.
  intros HK Hp Hf H t Hne. rewrite Hp, Hf by done. specialize (H t Hne).
  rewrite bool_decide_eq_false_2 in H by (intros <-; congruence). lia.
Qed.

(** An operation starts on a record whose flag is clear. *)
Lemma accounted_start K k i w w' :
  tag K = TOp k i ->
  flagged (TOp k i) (app w) = false ->
  pending w' = (pending w ++ [(next w, K)])%list ->
  (forall t, is_op t = true ->
             flagged t (app w')
             = if bool_decide (t = TOp k i) then true else flagged t (app w)) ->
  accounted w -> accounted w'.
Proof.
  intros Ht Hc Hp Hf H t Hne. rewrite Hp, Hf, inflight_snoc, Ht by done.
  specialize (H t Hne). destruct (decide (t = TOp k i)) as [-> | Hd].
  - rewrite !bool_decide_eq_true_2 by done. rewrite Hc in H. lia.
  - rewrite !bool_decide_eq_false_2 by congruence. lia.
Qed.

(** A handler that stands for no busy flag suspends. *)
Lemma accounted_await_other K w w' :
  is_op (tag K) = false ->
  pending w' = (pending w ++ [(next w, K)])%list ->
  (forall t, is_op t = true -> flagged t (app w') = flagged t (app w)) ->
  accounted w -> accounted w'.
Proof.
  intros HK Hp Hf H t Hne. rewrite Hp, Hf, inflight_snoc by done.
  specialize (H t Hne).
  rewrite bool_decide_eq_false_2 by (intros <-; congruence). lia.
Qed.

Lemma cleared_frame w w' :
  generationStatus (app w') = generationStatus (app w) ->
  ideas (app w') = ideas (app w) ->
  cleared_while_loading w -> cleared_while_loading w'.
Proof. unfold cleared_while_loading. intros -> ->. done. Qed.

Lemma cleared_map w w' (f : Idea -> Idea) :
  generationStatus (app w') = generationStatus (app w) ->
  ideas (app w') = map f (ideas (app w)) ->
  cleared_while_loading w -> cleared_while_loading w'.
Proof.
  unfold cleared_while_loading. intros -> -> H Hl. by rewrite (H Hl).
Qed.

Lemma cleared_not_loading w s :
  generationStatus (app w) = s -> s <> loading -> cleared_while_loading w.
Proof. unfold cleared_while_loading. congruence. Qed.

Lemma numbered_same w w' :
  pending w' = pending w -> next w' = next w -> numbered w -> numbered w'.
Proof. unfold numbered. by intros -> ->. Qed.

Lemma numbered_await K w w' :
  pending w' = (pending w ++ [(next w, K)])%list -> next w' = S (next w) ->
  numbered w -> numbered w'.
Proof.
  unfold numbered. intros -> -> H. apply Forall_app. split.
  - eapply Forall_impl; [exact H |]. cbn. lia.
  - repeat constructor.
Qed.

Lemma numbered_take w rid k rest :
  take_pending rid (pending w) = Some (k, rest) ->
  numbered w -> numbered (set_pending rest w).
Proof. intros Hp H. by eapply take_pending_Forall. Qed.

(** A handler that changes neither flags, nor records, nor the pool. *)
Ltac framed H :=
  let Ha := fresh "Ha" in
  let Hc := fresh "Hc" in
  let Hn := fresh "Hn" in
  destruct H as (Ha & Hc & Hn);
  split; [| split];
  [ eapply accounted_frame; [reflexivity | neutral | exact Ha]
  | eapply cleared_frame; [reflexivity | reflexivity | exact Hc]
  | eapply numbered_same; [reflexivity | reflexivity | exact Hn] ].

(** The flags after [setIdeaBusy i (patch_of k b)] on top of neutral
    updates. *)
Ltac flags k i b :=
  let t := fresh "t" in
  let Ht := fresh "Ht" in
  intros t Ht;
  etrans; [exact (flagged_patch t k i b _) |];
  destruct (bool_decide (t = TOp k i));
  [ reflexivity
  | destruct t as [| | [] ? |]; try discriminate Ht; reflexivity ].

Lemma card_button_ind (P : World -> Prop) flag i handler w :
  P w ->
  (forall idea,
      list_shown (app w) = true ->
      ideas (app w) !! i = Some idea ->
      on (flag (busy_of (app w) (id idea))) = false ->
      P (handler idea w)) ->
  P (card_button flag i handler w).
Proof.
  intros Hw Hh. unfold card_button.
  destruct (list_shown (app w)) eqn:Hs; [| done].
  destruct (ideas (app w) !! i) as [idea |] eqn:Hi; [| done].
  destruct (on (flag (busy_of (app w) (id idea)))) eqn:Hb; [done |].
  by apply Hh.
Qed.

Ltac keep_cleared Hc :=
  eapply cleared_frame; [reflexivity | reflexivity | exact Hc].

Ltac keep_numbered Hn :=
  eapply numbered_same; [reflexivity | reflexivity | exact Hn].

Lemma consistent_onGenerate w : consistent w -> consistent (onGenerate w).
Proof.
  intros (Ha & Hc & Hn). unfold onGenerate.
  destruct (String.length (Str.trim (topic (app w))) <? 3)%nat.
  - split; [| split].
    + eapply (accounted_frame w); [reflexivity | neutral | exact Ha].
    + eapply cleared_not_loading; [reflexivity | done].
    + keep_numbered Hn.
  - split; [| split].
    + eapply (accounted_await_other (KGenerate (count (app w))) w);
        [reflexivity | reflexivity | neutral | exact Ha].
    + intros _. reflexivity.
    + by eapply numbered_await.
Qed.

(** A Copy button: the text is handed over, and the notice waits. *)
Lemma consistent_onCopy v w : consistent w -> consistent (onCopy v w).
Proof.
  intros (Ha & Hc & Hn). unfold onCopy.
  split; [| split].
  - eapply (accounted_await_other KCopied w);
      [reflexivity | by destruct (Js.truthy v) | | exact Ha].
    destruct (Js.truthy v); neutral.
  - destruct (Js.truthy v); keep_cleared Hc.
  - eapply (numbered_await KCopied w); [| | exact Hn];
      by destruct (Js.truthy v).
Qed.

Lemma consistent_start K k i c (f : State -> State) w :
  tag K = TOp k i ->
  (forall a t, flagged t (f a) = flagged t a) ->
  (forall a, generationStatus (f a) = generationStatus a) ->
  (forall a, ideas (f a) = ideas a) ->
  flagged (TOp k i) (app w) = false ->
  consistent w ->
  consistent (call c K (upd (setIdeaBusy i (patch_of k true)) (upd f w))).
Proof.
  intros Ht Hf Hg Hi Hb (Ha & Hc & Hn). split; [| split].
  - eapply (accounted_start K k i w); [done | done | reflexivity | | done].
    intros t _. cbn [app call await upd]. rewrite flagged_patch, Hf.
    reflexivity.
  - eapply cleared_frame; [| | exact Hc]; cbn; [apply Hg | apply Hi].
  - by eapply numbered_await.
Qed.

Lemma consistent_onSave idea w :
  on (saving (busy_of (app w) (id idea))) = false ->
  consistent w -> consistent (onSave idea w).
Proof.
  intros Hb H.
  by apply (consistent_start (KSave idea) save (id idea)).
Qed.

Lemma consistent_onShare idea w :
  on (sharing (busy_of (app w) (id idea))) = false ->
  consistent w -> consistent (onShare idea w).
Proof.
  intros Hb H. unfold onShare. destruct (negb (Js.truthy (savedId idea))).
  - framed H.
  - by apply (consistent_start (KShare idea) share (id idea)).
Qed.

Lemma consistent_onExport idea format w :
  on (exporting (busy_of (app w) (id idea))) = false ->
  consistent w -> consistent (onExport idea format w).
Proof.
  intros Hb H. unfold onExport. destruct (negb (Js.truthy (savedId idea))).
  - unfold local_export.
    destruct (String.eqb format "txt"); [case_match; [framed H | exact H] |].
    destruct (String.eqb format "json"); [case_match; [framed H | exact H] |].
    framed H.
  - by apply (consistent_start (KExport idea (savedId idea) format) export
                (id idea)).
Qed.

(** The end of an operation handler: catch or success, then [finally]. *)
Ltac finishing K k i Ho Hc Hn :=
  split;
  [ eapply (owing_finish K k i); [ | | | exact Ho];
    [reflexivity | reflexivity | flags k i false]
  | split; [keep_cleared Hc | keep_numbered Hn] ].

Lemma consistent_run_cont env k o w :
  owing k w -> cleared_while_loading w -> numbered w ->
  consistent (run_cont env k o w).
Proof.
  intros Ho Hc Hn.
  destruct k as [| c | idea | idea | idea | idea | idea sid fmt |];
    cbn [run_cont].
  - (* initial load *)
    destruct o;
      (split;
       [ eapply (owing_other KInitialLoad w);
         [reflexivity | reflexivity | neutral | exact Ho]
       | split; [keep_cleared Hc | keep_numbered Hn] ]).
  - (* generate *)
    unfold resume_generate.
    destruct o as [result | e]; [destruct (normalize env c result) |];
      (split;
       [ eapply (owing_other (KGenerate c) w);
         [reflexivity | reflexivity | neutral | exact Ho]
       | split;
         [eapply cleared_not_loading; [reflexivity | done] | keep_numbered Hn] ]).
  - (* save: the response *)
    destruct o as [data | e]; cbn [resume_save].
    + split; [| split].
      * eapply (owing_await (KSave idea) (KSaveRefresh idea) w);
          [reflexivity | reflexivity | neutral | exact Ho].
      * eapply (cleared_map w _ (mark_saved env (id idea) (response_id data)));
          [reflexivity | reflexivity | exact Hc].
      * by eapply numbered_await.
    + finishing (KSave idea) save (id idea) Ho Hc Hn.
  - (* save: the refresh *)
    destruct o as [data | e]; cbn [resume_save_refresh];
      finishing (KSaveRefresh idea) save (id idea) Ho Hc Hn.
  - (* share: the response *)
    unfold resume_share.
    destruct o as [data | e];
      [destruct (negb (Js.truthy (response_url data))) |].
    + finishing (KShare idea) share (id idea) Ho Hc Hn.
    + split; [| split].
      * eapply (owing_await (KShare idea) (KShareCopy idea) w);
          [reflexivity | reflexivity | neutral | exact Ho].
      * keep_cleared Hc.
      * by eapply numbered_await.
    + finishing (KShare idea) share (id idea) Ho Hc Hn.
  - (* share: the copy *)
    destruct o as [data | e]; cbn [resume_share_copy];
      finishing (KShareCopy idea) share (id idea) Ho Hc Hn.
  - (* export *)
    destruct o as [data | e]; cbn [resume_export]; repeat case_match;
      finishing (KExport idea sid fmt) export (id idea) Ho Hc Hn.
  - (* copy *)
    destruct o;
      (split;
       [ eapply (owing_other KCopied w);
         [reflexivity | reflexivity | neutral | exact Ho]
       | split; [keep_cleared Hc | keep_numbered Hn] ]).
Qed.

Lemma consistent_mount : consistent mount.
Proof.
  split; [| split].
  - intros [| | k i |] Ht; [done | done | | done]. by destruct k.
  - done.
  - repeat constructor.
Qed.

(** The flags and the suspended handlers agree in every state of the
    mounted component. *)
Lemma consistent_handle w ev : consistent w -> consistent (handle w ev).
Proof.
  intros H.
  destruct ev as [v | v | v | | | i | i | i | i fmt | i | env rid o];
    cbn [handle].
  - framed H.
  - destruct (bool_decide (v ∈ tones)); [framed H | exact H].
  - destruct (bool_decide (v ∈ counts)); [framed H | exact H].
  - destruct (canGenerate (app w)) eqn:Hg; [| exact H].
    by apply consistent_onGenerate.
  - by apply consistent_onGenerate.
  - unfold card_copy. repeat case_match; try exact H.
    by apply consistent_onCopy.
  - apply card_button_ind; [exact H |]. intros idea _ _ Hb.
    by apply consistent_onSave.
  - apply card_button_ind; [exact H |]. intros idea _ _ Hb.
    by apply consistent_onShare.
  - destruct (bool_decide (fmt ∈ ["txt"; "json"])); [| exact H].
    apply card_button_ind; [exact H |]. intros idea _ _ Hb.
    by apply consistent_onExport.
  - unfold saved_copy. repeat case_match; try exact H.
    by apply consistent_onCopy.
  - unfold resume.
    destruct (take_pending rid (pending w)) as [[k rest] |] eqn:Hp; [| exact H].
    destruct H as (Ha & Hc & Hn). apply consistent_run_cont.
    + by eapply owing_take.
    + exact Hc.
    + by eapply numbered_take.
Qed.

Lemma reachable_consistent w : reachable w -> consistent w.
Proof.
  induction 1 as [| w ev _ IH]; [apply consistent_mount |].
  by apply consistent_handle.
Qed.

Lemma reachable_run w evs : reachable w -> reachable (run w evs).
Proof.
  revert w. induction evs as [| ev evs IH]; intros w H; [exact H |].
  apply IH. by constructor.
Qed.

(** ** Generate *)

Lemma controls_reachable w : reachable_by_controls w -> reachable w.
Proof. induction 1; by constructor. Qed.

Lemma controls_run w evs :
  reachable_by_controls w -> forallb from_controls evs = true ->
  reachable_by_controls (run w evs).
Proof.
  revert w. induction evs as [| ev evs IH]; intros w H; cbn; [done |].
  intros [Hev Hevs]%andb_true_iff. apply IH; [| exact Hevs].
  by constructor.
Qed.

(** Every branch of [handle], laid open. *)
Ltac open_step :=
  cbn [handle];
  unfold card_button, resume, run_cont, resume_generate, resume_save,
    resume_save_refresh, resume_initial_load, resume_share, resume_share_copy,
    resume_export, resume_copied, card_copy, saved_copy, onGenerate, onSave,
    onShare, onExport, onCopy, local_export, generate_catch, share_catch,
    share_finally, save_finally, export_catch, export_finally;
  repeat case_match; cbn.

(** Operated by its controls, the component has at most one generate call
    in flight. *)
Lemma generate_accounted_handle w ev :
  from_controls ev = true ->
  generate_accounted w -> generate_accounted (handle w ev).
Proof.
  unfold generate_accounted. intros Hev [H1 H0].
  destruct ev; try discriminate Hev; open_step;
    try (by split);
    try match goal with
        | H : canGenerate _ = true |- _ =>
            apply andb_true_iff in H as [_ H];
            apply negb_true_iff, bool_decide_eq_false in H
        end;
    repeat match goal with
           | |- context [length (List.filter _ ?p)] =>
               change (length (List.filter _ p)) with (inflight TGenerate p)
           end;
    rewrite ?inflight_snoc; cbn [tag];
    try match goal with
        | H : take_pending _ _ = Some _ |- _ =>
            let Ht := fresh "Ht" in
            pose proof (inflight_take TGenerate _ _ _ _ H) as Ht;
            cbn [tag] in Ht
        end;
    rewrite ?(bool_decide_eq_true_2 (TGenerate = TGenerate)) in * by done;
    repeat match goal with
           | |- context [bool_decide (?t = TGenerate)] =>
               rewrite (bool_decide_eq_false_2 (t = TGenerate)) by done
           | H : context [bool_decide (?t = TGenerate)] |- _ =>
               rewrite (bool_decide_eq_false_2 (t = TGenerate)) in H by done
           end;
    (destruct (decide (generationStatus (app w) = loading)) as [E | E];
     [specialize (H1 E); clear H0 | specialize (H0 E); clear H1]);
    split; intros Hl; try done; try congruence; lia.
Qed.

Lemma controls_generate_accounted w :
  reachable_by_controls w -> generate_accounted w.
Proof.
  induction 1 as [| w ev _ IH Hev]; [by split |].
  by apply generate_accounted_handle.
Qed.

Lemma accounted_flagged w t :
  accounted w -> is_op t = true -> 0 < inflight t (pending w) ->
  flagged t (app w) = true.
Proof.
  intros H Ht Hi. specialize (H t Ht). destruct (flagged t (app w)); [done | lia].
Qed.

Lemma accounted_at_most_one w t :
  accounted w -> is_op t = true -> inflight t (pending w) <= 1.
Proof.
  intros H Ht. rewrite (H t Ht). destruct (flagged t (app w)); lia.
Qed.

Lemma resume_generate_failure env c o e w :
  generate_failure env c o = Some e ->
  resume_generate env c o w = generate_catch e w.
Proof.
  unfold resume_generate, generate_failure.
  destruct o as [result | e']; [| congruence].
  destruct (normalize env c result); congruence.
Qed.

(** C7, as the code has it.  When a Generate call of the mounted component
    fails (the call is rejected, by the server, the network or the timeout,
    or its answer cannot be normalized), the generation status is "error"
    and a non-empty error message is set: the message of the error, or
    "Failed to generate ideas."  The [catch] clause does not touch the
    record collection: it is left as the failure found it.  It is the start
    of a call that empties the collection, so the collection is empty after
    the failure whenever the status was still "loading", that is, whenever
    no other Generate call was answered in between; this is always so when
    the component is operated by its controls only. *)
Theorem failed_generate_surfaces_error env rid c rest o e w :
  reachable w ->
  take_pending rid (pending w) = Some (KGenerate c, rest) ->
  generate_failure env c o = Some e ->
  let w' := handle w (Settle env rid o) in
  (generationStatus (app w') = error
   /\ generationError (app w')
      = Str.or_else (err_message e) "Failed to generate ideas."
   /\ generationError (app w') <> "")
  /\ ideas (app w') = ideas (app w)
  /\ (generationStatus (app w) = loading -> ideas (app w') = [])
  /\ (reachable_by_controls w -> ideas (app w') = []).
Proof.
  intros Hr Hp Hf w'. subst w'. cbn [handle].
  rewrite (resume_pending _ _ _ _ _ _ Hp). cbn [run_cont].
  destruct (reachable_consistent w Hr) as (_ & Hc & _).
  rewrite (resume_generate_failure _ _ _ _ _ Hf). cbn.
  split; [| split; [reflexivity | split; [exact Hc |]]].
  - split; [reflexivity |]. split; [reflexivity |].
    by apply or_else_nonempty.
  - intros [H1 H0]%controls_generate_accounted. apply Hc.
    destruct (decide (generationStatus (app w) = loading)) as [E | E];
      [exact E |].
    specialize (H0 E). rewrite (inflight_take TGenerate _ _ _ _ Hp) in H0.
    cbn [tag] in H0. rewrite bool_decide_eq_true_2 in H0 by done. lia.
Qed.

(** Two ideas are on the page, a new call is submitted and times out: the
    two ideas are gone. *)
Lemma failed_generate_surfaces_error_witness :
  (reachable Sample.generating_again
   /\ take_pending 2 (pending Sample.generating_again) = Some (KGenerate 6, [])
   /\ generate_failure Sample.now 6
        (Rejected (new_Error "Request timed out. Please try again."))
      = Some (new_Error "Request timed out. Please try again.")
   /\ reachable_by_controls Sample.generating_again)
  /\ length (ideas (app Sample.generated)) = 2
  /\ ideas (app (handle Sample.generating_again
                   (Settle Sample.now 2
                      (Rejected (new_Error "Request timed out. Please try again.")))))
     = []
  /\ generationError
       (app (handle Sample.generating_again
               (Settle Sample.now 2
                  (Rejected (new_Error "Request timed out. Please try again.")))))
     = "Request timed out. Please try again.".
Proof.
  assert (reachable Sample.generating_again) as Hr
    by (apply reachable_run, reachable_run, reach_mount).
  assert (reachable_by_controls Sample.generating_again) as Hc
    by (do 2 (apply controls_run; [| reflexivity]); apply controls_mount).
  assert (take_pending 2 (pending Sample.generating_again)
          = Some (KGenerate 6, [])) as Hp by (vm_compute; reflexivity).
  split; [by repeat split |]. split; [reflexivity |].
  destruct (failed_generate_surfaces_error Sample.now 2 6 []
              (Rejected (new_Error "Request timed out. Please try again."))
              _ _ Hr Hp eq_refl) as ((_ & He & _) & _ & _ & Hi).
  split; [exact (Hi Hc) | exact He].
Defined.

(** C7 as stated fails: two Generate calls are in flight, the second is
    answered and its records are shown, then the first one fails; the
    records are still there, next to the error. *)
Lemma failed_generate_keeps_records_counterexample :
  reachable Sample.newer_applied
  /\ take_pending 1 (pending Sample.newer_applied) = Some (KGenerate 6, [])
  /\ generationStatus (app Sample.stale_failed) = error
  /\ map text (ideas (app Sample.stale_failed)) = [VStr "newer"]
  /\ ideas (app Sample.stale_failed) <> [].
Proof.
  split; [do 3 apply reachable_run; apply reach_mount |].
  repeat split; vm_compute; congruence.
Qed.

Example generate_not_an_array :
  generate_failure Sample.now 6 (Fulfilled (VObj [("ideas", VStr "a, b")]))
  = Some (mkJsError "TypeError" "list.map is not a function" None VUndef).
Proof. reflexivity. Qed.

(** C1, as the code has it.  [onGenerate] keeps no generation counter:
    whenever the answer of a suspended generate call arrives and can be
    normalized, its records replace the collection, whatever was issued in
    between.  What the component has instead is the submit button, which is
    disabled while the status is "loading": a click on it then changes
    nothing, and operated by its controls only the component has at most one
    generate call in flight.  The handler itself has no such guard: a submit
    event that reaches the form issues a call whenever the topic has three
    characters, one more if one is in flight already. *)
Theorem generate_answers_applied_as_they_arrive :
  (forall env rid c rest result records w,
      take_pending rid (pending w) = Some (KGenerate c, rest) ->
      normalize env c result = inr records ->
      ideas (app (handle w (Settle env rid (Fulfilled result)))) = records)
  /\ (forall w,
        generationStatus (app w) = loading ->
        canGenerate (app w) = false /\ handle w Submit = w)
  /\ (forall w,
        (String.length (Str.trim (topic (app w))) <? 3)%nat = false ->
        let w' := handle w FormSubmit in
        network w'
        = (network w
           ++ [Api.generateIdeas (Str.trim (topic (app w))) (tone (app w))
                 (count (app w))])%list
        /\ pending w' = (pending w ++ [(next w, KGenerate (count (app w)))])%list
        /\ inflight TGenerate (pending w') = S (inflight TGenerate (pending w)))
  /\ (forall w,
        reachable_by_controls w ->
        inflight TGenerate (pending w) <= 1
        /\ (0 < inflight TGenerate (pending w) -> handle w Submit = w)).
Proof.
  assert (forall w, generationStatus (app w) = loading ->
                    canGenerate (app w) = false) as Hoff.
  { intros w Hl. unfold canGenerate. rewrite Hl. cbn. by rewrite andb_false_r. }
  split; [| split; [| split]].
  - intros env rid c rest result records w Hp Hn. cbn [handle].
    rewrite (resume_pending _ _ _ _ _ _ Hp). cbn [run_cont].
    unfold resume_generate. rewrite Hn. reflexivity.
  - intros w Hl. split; [by apply Hoff |]. cbn [handle].
    by rewrite (Hoff w Hl).
  - intros w Hl w'. subst w'. cbn [handle]. unfold onGenerate. rewrite Hl.
    split; [reflexivity |]. split; [reflexivity |].
    cbn [pending call await upd]. rewrite inflight_snoc.
    rewrite bool_decide_eq_true_2 by reflexivity. lia.
  - intros w [H1 H0]%controls_generate_accounted.
    destruct (decide (generationStatus (app w) = loading)) as [E | E].
    + rewrite (H1 E). split; [lia |]. intros _. cbn [handle].
      by rewrite (Hoff w E).
    + rewrite (H0 E). split; lia.
Qed.

Lemma generate_answers_applied_as_they_arrive_witness :
  (generationStatus (app Sample.generating) = loading
   /\ reachable_by_controls Sample.generating
   /\ (String.length (Str.trim (topic (app Sample.generating))) <? 3)%nat = false
   /\ take_pending 1 (pending Sample.newer_applied) = Some (KGenerate 6, [])
   /\ normalize Sample.now 6 (VArr [VStr "stale"])
      = inr [fresh_idea Sample.now 0 (VStr "stale")])
  /\ handle Sample.generating Submit = Sample.generating
  /\ inflight TGenerate (pending Sample.generating) <= 1
  /\ inflight TGenerate (pending (handle Sample.generating FormSubmit)) = 2
  /\ ideas (app Sample.stale_arrived) = [fresh_idea Sample.now 0 (VStr "stale")].
Proof.
  assert (reachable_by_controls Sample.generating) as Hc
    by (apply controls_run; [apply controls_mount | reflexivity]).
  assert (take_pending 1 (pending Sample.newer_applied)
          = Some (KGenerate 6, [])) as Hp by (vm_compute; reflexivity).
  destruct generate_answers_applied_as_they_arrive
    as (Happ & Hgate & Hform & Hone).
  split; [by repeat split |].
  split; [exact (proj2 (Hgate Sample.generating eq_refl)) |].
  split; [exact (proj1 (Hone _ Hc)) |].
  split.
  - destruct (Hform Sample.generating eq_refl) as (_ & _ & Hi).
    etrans; [exact Hi |]. vm_compute. reflexivity.
  - exact (Happ Sample.now 1 6%Z [] (VArr [VStr "stale"]) _ _ Hp eq_refl).
Defined.

(** C1 as stated fails: the form receives a second submit event while the
    first call is in flight, the answer of the second call arrives and is
    applied, then the answer of the first call arrives, and the collection
    holds the stale records. *)
Lemma stale_generate_applied_counterexample :
  reachable Sample.stale_arrived
  /\ map snd (pending Sample.generating_twice) = [KGenerate 6; KGenerate 6]
  /\ map text (ideas (app Sample.newer_applied)) = [VStr "newer"]
  /\ map text (ideas (app Sample.stale_arrived)) = [VStr "stale"]
  /\ ideas (app Sample.stale_arrived) <> ideas (app Sample.newer_applied).
Proof.
  split; [do 4 apply reachable_run; apply reach_mount |].
  repeat split; vm_compute; congruence.
Qed.

(** ** Save, Share and Export: one at a time per record *)

Lemma saves_in_flight_le i p : saves_in_flight i p <= inflight (TOp save i) p.
Proof.
  unfold saves_in_flight, inflight.
  induction p as [| [r k] p IH]; cbn; [lia |].
  destruct k as [| c | idea | idea | idea | idea | idea sid fmt |]; cbn;
    try (destruct (bool_decide _); cbn; lia).
  destruct (decide (id idea = i)) as [E | E].
  - rewrite !bool_decide_eq_true_2 by congruence. cbn. lia.
  - rewrite !bool_decide_eq_false_2 by congruence. lia.
Qed.

(** C2. In every state of the mounted component, each record has at most
    one suspended handler per kind of operation, and so at most one remote
    save call in flight; a click on the Save button of a record whose save
    is in flight changes nothing, so no second call is issued. *)
Theorem save_in_flight_blocks_save w :
  reachable w ->
  (forall k i, inflight (TOp k i) (pending w) <= 1)
  /\ (forall i, saves_in_flight i (pending w) <= 1)
  /\ (forall n idea,
        ideas (app w) !! n = Some idea ->
        0 < inflight (TOp save (id idea)) (pending w) ->
        handle w (ClickSave n) = w).
Proof.
  intros Hr. destruct (reachable_consistent w Hr) as (Ha & _ & _).
  split; [| split].
  - intros k i. by apply accounted_at_most_one.
  - intros i. etrans; [apply saves_in_flight_le |].
    by apply accounted_at_most_one.
  - intros n idea Hn Hi.
    apply (accounted_flagged w _ Ha) in Hi; [| done]. cbn in Hi.
    cbn [handle]. unfold card_button.
    destruct (list_shown (app w)); [| reflexivity].
    by rewrite Hn, Hi.
Qed.

(** The guard is the [disabled] attribute of the button, not [onSave]:
    the handler invoked directly on a record whose save is in flight, which
    the rendered button does not do, issues a second call. *)
Example onSave_does_not_check_the_flag :
  saves_in_flight (id Sample.first)
    (pending (onSave Sample.first Sample.saving_first)) = 2.
Proof. vm_compute. reflexivity. Qed.

Lemma save_in_flight_blocks_save_witness :
  (reachable Sample.saving_first
   /\ ideas (app Sample.saving_first) !! 0%nat = Some Sample.first
   /\ 0 < inflight (TOp save (id Sample.first)) (pending Sample.saving_first))
  /\ handle Sample.saving_first (ClickSave 0) = Sample.saving_first
  /\ saves_in_flight (id Sample.first)
       (pending (handle Sample.saving_first (ClickSave 0))) = 1.
Proof.
  assert (reachable Sample.saving_first) as Hr
    by (apply reachable_run, reachable_run, reach_mount).
  assert (ideas (app Sample.saving_first) !! 0%nat = Some Sample.first) as Hn
    by (vm_compute; reflexivity).
  assert (0 < inflight (TOp save (id Sample.first))
                (pending Sample.saving_first)) as Hi by (vm_compute; lia).
  split; [by repeat split |].
  destruct (save_in_flight_blocks_save _ Hr) as (_ & _ & H).
  rewrite (H _ _ Hn Hi). split; [reflexivity |]. vm_compute. reflexivity.
Defined.

(** * Further properties of the code *)

Import Wf.

(** ** Trimming twice *)

Lemma drop_while_idem p l :
  Str.drop_while p (Str.drop_while p l) = Str.drop_while p l.
Proof.
  induction l as [| c l IH]; cbn; [done |].
  destruct (p c) eqn:E; [exact IH |]. cbn. by rewrite E.
Qed.

Lemma drop_while_snoc p l c :
  p c = false ->
  Str.drop_while p (l ++ [c]) = (Str.drop_while p l ++ [c])%list.
Proof.
  intros Hc. induction l as [| d l IH]; cbn; [by rewrite Hc |].
  by destruct (p d).
Qed.

Lemma drop_while_fixed p l :
  Str.drop_while p l = l -> l = [] \/ exists c l', l = c :: l' /\ p c = false.
Proof.
  destruct l as [| c l]; [by left |]. cbn. destruct (p c) eqn:E; [| eauto].
  intros H. pose proof (drop_while_length p l) as Hl.
  rewrite H in Hl. cbn in Hl. lia.
Qed.

Lemma trim_chars_idem l :
  Str.trim_chars (Str.trim_chars l) = Str.trim_chars l.
Proof.
  unfold Str.trim_chars.
  destruct (drop_while_fixed Str.is_space _ (drop_while_idem Str.is_space l))
    as [-> | (c & l' & -> & Hc)]; [reflexivity |].
  cbn [rev]. rewrite drop_while_snoc by done.
  rewrite rev_app_distr. simpl. rewrite Hc. simpl.
  rewrite rev_involutive, drop_while_snoc by done.
  rewrite drop_while_idem, rev_app_distr. reflexivity.
Qed.

Lemma trim_idem s : Str.trim (Str.trim s) = Str.trim s.
Proof. unfold Str.trim. by rewrite chars_pack, trim_chars_idem. Qed.

Lemma pack_chars s : Str.pack (Str.chars s) = s.
Proof. apply string_of_list_ascii_of_string. Qed.

(** ** The sanitized name *)

Lemma filter_all_kept (l : list ascii) :
  Forall (fun c => Str.keeps c = true) l -> List.filter Str.keeps l = l.
Proof. induction 1 as [| c l Hc _ IH]; cbn; [done |]. by rewrite Hc, IH. Qed.

Lemma or_else_left a b : a <> "" -> Str.or_else a b = a.
Proof. by destruct a. Qed.

(** X1. Sanitizing is idempotent: the name made from a topic that is already
    a sanitized name is that name. *)
Theorem safeName_idempotent t : safeName (safeName t) = safeName t.
Proof.
  destruct (safeName_cases t) as [-> | [E Hne]]; [reflexivity |].
  destruct (safeName_sanitized t) as (Hk & Hl & _).
  assert (Str.trim (safeName t) = safeName t) as Ht
    by (rewrite E; apply trim_idem).
  set (u := safeName t) in *. unfold safeName.
  rewrite Ht, (or_else_left u) by done.
  assert (Str.slice_to 40 u = u) as ->.
  { unfold Str.slice_to. rewrite take_ge, pack_chars; [done |].
    by rewrite <- string_length_chars. }
  assert (Str.strip_unsafe u = u) as ->.
  { unfold Str.strip_unsafe. by rewrite filter_all_kept, pack_chars. }
  by rewrite Ht, or_else_left.
Qed.

(** ** The URL of a call *)

Lemma chars_app a b : Str.chars (a +:+ b) = (Str.chars a ++ Str.chars b)%list.
Proof.
  unfold Str.chars. induction a as [| c a IH]; [reflexivity |].
  change (c :: list_ascii_of_string (a +:+ b)
          = c :: (list_ascii_of_string a ++ list_ascii_of_string b)%list).
  by rewrite IH.
Qed.

Lemma or_else_empty s : Str.or_else s "" = s.
Proof. by destruct s. Qed.

Lemma strip_trailing_slash s :
  Url.strip_trailing_slashes (s +:+ "/") = Url.strip_trailing_slashes s.
Proof.
  unfold Url.strip_trailing_slashes. rewrite chars_app, rev_app_distr.
  reflexivity.
Qed.

Lemma stripped_last s c :
  last (Str.chars (Url.strip_trailing_slashes s)) = Some c ->
  Url.is_slash c = false.
Proof.
  unfold Url.strip_trailing_slashes. rewrite chars_pack.
  pose proof (drop_while_idem Url.is_slash (rev (Str.chars s))) as H.
  apply drop_while_fixed in H as [-> | (d & l' & -> & Hd)]; [done |].
  cbn [rev]. rewrite last_snoc. by intros [= <-].
Qed.

(** X2. The base URL never ends with a slash, and a slash appended to the
    configured value changes nothing.  With no base (the variable unset,
    empty, or made of slashes only) a path is used as it is; with a base,
    the path is joined to it by exactly one slash, whether or not the path
    brings its own. *)
Theorem buildUrl_joins_with_one_slash base_url path :
  (forall c, last (Str.chars (Url.getApiBaseUrl base_url)) = Some c ->
             Url.is_slash c = false)
  /\ (forall s, Url.getApiBaseUrl (Some (s +:+ "/")) = Url.getApiBaseUrl (Some s))
  /\ (Url.getApiBaseUrl base_url = "" -> Url.buildUrl base_url path = path)
  /\ (Url.getApiBaseUrl base_url <> "" ->
      Url.starts_with_slash path = false ->
      Url.buildUrl base_url path
      = Url.getApiBaseUrl base_url +:+ "/" +:+ path
      /\ Url.buildUrl base_url ("/" +:+ path) = Url.buildUrl base_url path).
Proof.
  split; [| split; [| split]].
  - intros c. apply stripped_last.
  - intros s. unfold Url.getApiBaseUrl. rewrite !or_else_empty.
    apply strip_trailing_slash.
  - intros E. unfold Url.buildUrl. by rewrite E.
  - intros Hb Hp. unfold Url.buildUrl.
    destruct (Url.getApiBaseUrl base_url) as [| c b]; [done |].
    cbn [Str.is_empty]. rewrite Hp. split; reflexivity.
Qed.

Lemma buildUrl_joins_with_one_slash_witness :
  (Url.getApiBaseUrl (Some "https://api.example.com//") <> ""
   /\ Url.starts_with_slash "api/ideas" = false)
  /\ Url.buildUrl (Some "https://api.example.com//") "api/ideas"
     = "https://api.example.com/api/ideas"
  /\ Url.buildUrl (Some "https://api.example.com//") "/api/ideas"
     = "https://api.example.com/api/ideas".
Proof.
  assert (Url.getApiBaseUrl (Some "https://api.example.com//") <> "") as Hb
    by (vm_compute; discriminate).
  split; [by split |].
  destruct (buildUrl_joins_with_one_slash (Some "https://api.example.com//")
              "api/ideas") as (_ & _ & _ & H).
  destruct (H Hb eq_refl) as [H1 H2].
  change ("/api/ideas") with ("/" +:+ "api/ideas").
  rewrite H2, H1. split; reflexivity.
Defined.

(** ** The transport, on its other paths *)

(** X3. [request] fulfils exactly when the server answered with a status
    from 200 to 299, and then with the parsed body: [null] for an empty
    text, the parsed value when the text parses, the text itself
    otherwise. *)
Theorem request_fulfils_exactly_on_2xx parse f v :
  Api.request parse f = Fulfilled v <->
  exists status text,
    f = Api.Responded status text
    /\ (200 <= status <= 299)%Z
    /\ v = (if Str.is_empty text then VNull
            else match parse text with
                 | Some b => b
                 | None => VStr text
                 end).
Proof.
  split.
  - destruct f as [status text | e]; cbn.
    + destruct (Api.ok status) eqn:E; cbn; [| by case_match].
      intros [= <-]. exists status, text. split; [done |].
      unfold Api.ok in E. split; [lia | reflexivity].
    + destruct (String.eqb _ _); discriminate.
  - intros (status & text & -> & Hs & ->). cbn.
    assert (Api.ok status = true) as -> by (unfold Api.ok; lia).
    reflexivity.
Qed.

Lemma request_fulfils_exactly_on_2xx_witness :
  Api.request (fun _ => None) (Api.Responded 204 "") = Fulfilled VNull
  /\ exists status text,
       Api.Responded 204 "" = Api.Responded status text
       /\ (200 <= status <= 299)%Z.
Proof.
  split; [reflexivity |].
  destruct (proj1 (request_fulfils_exactly_on_2xx (fun _ => None)
                     (Api.Responded 204 "") VNull) eq_refl)
    as (status & text & E & Hs & _).
  by exists status, text.
Defined.

(** ** The rows of the saved panel *)

(** X4. The saved panel renders the first 20 entries of the list, in
    order.  A row never shows a blank: it shows the entry's [text], else
    its [idea], else its [content], and "(empty)" when all are missing; in
    that last case its Copy button writes nothing to the clipboard. *)
Theorem saved_rows_shown l :
  length (Saved.rows l) = min 20 (length l)
  /\ forall i r,
       Saved.rows l !! i = Some r ->
       exists it,
         l !! i = Some it
         /\ i < 20
         /\ Js.truthy (Saved.label r) = true
         /\ (Js.truthy (Saved.row_text it) = true ->
             Saved.label r = Saved.row_text it
             /\ Saved.written (Saved.copied r) = Some (Saved.row_text it))
         /\ (Js.truthy (Saved.row_text it) = false ->
             Saved.label r = VStr "(empty)"
             /\ Saved.written (Saved.copied r) = None).
Proof.
  unfold Saved.rows. split; [by rewrite length_imap, length_take |].
  intros i r. rewrite list_lookup_imap.
  destruct (take 20 l !! i) as [it |] eqn:Hi; [| done]. cbn. intros [= <-].
  apply lookup_take_Some in Hi as [Hi Hlt]. exists it.
  split; [done |]. split; [done |]. cbn. unfold Saved.shown, Saved.written.
  destruct (Js.truthy (Saved.row_text it)) eqn:Ht.
  - rewrite (or_truthy _ _ Ht). by repeat split.
  - rewrite (or_falsy _ _ Ht). by repeat split.
Qed.

Lemma saved_rows_shown_witness :
  Saved.rows [VObj [("id", VStr "r0")]] !! 0%nat
  = Some (Saved.mkRow (VStr "r0") (VStr "(empty)") (VStr ""))
  /\ Saved.written (VStr "") = None.
Proof.
  assert (Saved.rows [VObj [("id", VStr "r0")]] !! 0%nat
          = Some (Saved.mkRow (VStr "r0") (VStr "(empty)") (VStr ""))) as H
    by reflexivity.
  split; [exact H |].
  destruct (proj2 (saved_rows_shown [VObj [("id", VStr "r0")]]) _ _ H)
    as (it & Hi & _ & _ & _ & He).
  injection Hi as <-. exact (proj2 (He eq_refl)).
Defined.

(** ** Local ids *)

Lemma of_Z_inj a b : Str.of_Z a = Str.of_Z b -> a = b.
Proof.
  unfold Str.of_Z. intros H.
  assert (forall z, NilZero.int_of_string (NilZero.string_of_int (Z.to_int z))
                    = Some (Z.to_int z)) as Hisi.
  { intros z. apply NilZero.isi; destruct z; cbn; try discriminate;
      intros [= E]; by apply DecimalPos.Unsigned.to_uint_nonnil in E. }
  apply (f_equal NilZero.int_of_string) in H. rewrite !Hisi in H.
  injection H as H. apply (f_equal Z.of_int) in H.
  by rewrite !DecimalZ.of_to in H.
Qed.

Lemma digits_no_underscore d :
  Forall (fun c => c <> "_"%char) (Str.chars (NilEmpty.string_of_uint d)).
Proof. induction d; cbn; constructor; done. Qed.

Lemma of_Z_no_underscore z :
  Forall (fun c => c <> "_"%char) (Str.chars (Str.of_Z z)).
Proof.
  unfold Str.of_Z, NilZero.string_of_int, NilZero.string_of_uint.
  destruct (Z.to_int z) as [d | d]; [| cbn; constructor; [done |]];
    (destruct d; [repeat constructor; done | apply digits_no_underscore ..]).
Qed.

Lemma split_at_mark (m : ascii) A A' H H' :
  Forall (fun c => c <> m) A -> Forall (fun c => c <> m) A' ->
  (A ++ m :: H = A' ++ m :: H')%list -> A = A' /\ H = H'.
Proof.
  intros HA. revert A'. induction HA as [| c A Hc _ IH]; intros A' HA' E.
  - destruct HA' as [| c' A' Hc' _]; cbn in E; [by injection E | congruence].
  - destruct HA' as [| c' A' Hc' HA']; cbn in E; [congruence |].
    injection E as -> E. destruct (IH _ HA' E) as [-> ->]. done.
Qed.

Lemma makeLocalId_inj env j k :
  makeLocalId env j = makeLocalId env k ->
  Date_now env j = Date_now env k
  /\ Math_random_hex env j = Math_random_hex env k.
Proof.
  unfold makeLocalId. intros H.
  assert (Str.of_Z (Date_now env j) +:+ "_" +:+ Math_random_hex env j
          = Str.of_Z (Date_now env k) +:+ "_" +:+ Math_random_hex env k) as E
    by (cbn in H; by injection H).
  apply (f_equal Str.chars) in E. rewrite !chars_app in E.
  apply split_at_mark in E as [E1 E2]; try apply of_Z_no_underscore.
  apply (f_equal Str.pack) in E1, E2. rewrite !pack_chars in E1, E2.
  split; [by apply of_Z_inj | done].
Qed.

Lemma normalize_inr env count result records :
  normalize env count result = inr records ->
  exists l,
    pick_list result = VArr l
    /\ records = imap (fresh_idea env) (kept_texts count l).
Proof.
  unfold normalize. destruct (pick_list result); try discriminate.
  intros [= <-]. eauto.
Qed.

Lemma fresh_batch_ok env ts :
  Forall (fun t => Js.truthy t = true) ts ->
  Forall record_ok (imap (fresh_idea env) ts).
Proof.
  intros H. apply Forall_lookup. intros i it. rewrite list_lookup_imap.
  destruct (ts !! i) as [t |] eqn:Ht; [| done]. cbn. intros [= <-].
  split; [| split]; cbn.
  - unfold makeLocalId. eauto.
  - by eapply (proj1 (Forall_lookup _ _) H).
  - split; [done | by intros []].
Qed.

Lemma kept_texts_all_truthy count l :
  Forall (fun t => Js.truthy t = true) (kept_texts count l).
Proof.
  apply List.Forall_forall. intros t. apply kept_texts_truthy.
Qed.

(** X5. A batch that [onGenerate] builds from an answer holds one record
    per kept text, in order: for a count other than 0, as many as there are
    items with a truthy text, up to [max(1, count)].  Every record of the
    batch is unsaved (no remote identifier, no save time), has a truthy
    text and a local id that begins with "local_". *)
Theorem generated_batch_shape env count result records :
  normalize env count result = inr records ->
  exists l,
    pick_list result = VArr l
    /\ map text records = kept_texts count l
    /\ (count <> 0%Z ->
        length records
        = min (Z.to_nat (Z.max 1 count))
              (length (List.filter Js.truthy (map item_text l))))
    /\ Forall (fun it =>
                 savedId it = VUndef /\ savedAt it = None
                 /\ Js.truthy (text it) = true
                 /\ exists rest, id it = "local_" +:+ rest) records.
Proof.
  intros H. destruct (normalize_inr _ _ _ _ H) as (l & Hl & ->).
  exists l. split; [done |].
  destruct (normalize_texts env count result l Hl) as (r & Hr & Ht & _).
  rewrite H in Hr. injection Hr as <-. split; [done |]. split.
  - intros Hc. rewrite length_imap. unfold kept_texts.
    by rewrite length_take, slice_end_nonzero.
  - apply Forall_lookup. intros i it Hi.
    pose proof (proj1 (Forall_lookup _ _)
                  (fresh_batch_ok env _ (kept_texts_all_truthy count l))
                  i it Hi) as (Hid & Htx & _).
    rewrite list_lookup_imap in Hi.
    destruct (kept_texts count l !! i); [| done].
    cbn in Hi. injection Hi as <-. done.
Qed.

Lemma generated_batch_shape_witness :
  normalize Sample.now 3
    (VArr [VStr "a"; VObj []; VStr "b"; VStr "c"; VStr "d"])
  = inr [fresh_idea Sample.now 0 (VStr "a"); fresh_idea Sample.now 1 (VStr "b");
         fresh_idea Sample.now 2 (VStr "c")]
  /\ (3 <> 0)%Z
  /\ length [fresh_idea Sample.now 0 (VStr "a"); fresh_idea Sample.now 1 (VStr "b");
             fresh_idea Sample.now 2 (VStr "c")]
     = min (Z.to_nat (Z.max 1 3)) 4.
Proof.
  assert (normalize Sample.now 3
            (VArr [VStr "a"; VObj []; VStr "b"; VStr "c"; VStr "d"])
          = inr [fresh_idea Sample.now 0 (VStr "a");
                 fresh_idea Sample.now 1 (VStr "b");
                 fresh_idea Sample.now 2 (VStr "c")]) as H by reflexivity.
  split; [exact H |]. split; [done |].
  destruct (generated_batch_shape _ _ _ _ H) as (l & Hl & _ & Hn & _).
  injection Hl as <-. exact (Hn ltac:(done)).
Defined.

(** X6. The local ids of a batch are pairwise distinct whenever no two
    calls of [makeLocalId] in the batch see both the same clock value and
    the same random digits; nothing else keeps them apart. *)
Theorem batch_ids_distinct env count result records :
  normalize env count result = inr records ->
  (forall j k, j < k < length records ->
     Date_now env j <> Date_now env k
     \/ Math_random_hex env j <> Math_random_hex env k) ->
  NoDup (map id records).
Proof.
  intros H Hd. destruct (normalize_inr _ _ _ _ H) as (l & Hl & _).
  destruct (normalize_texts env count result l Hl) as (r & Hr & _ & Hi).
  rewrite H in Hr. injection Hr as <-. rewrite Hi.
  apply (NoDup_fmap_2_strong (makeLocalId env)); [| apply NoDup_seq].
  intros j k Hj Hk E. apply elem_of_seq in Hj, Hk.
  apply makeLocalId_inj in E as [E1 E2].
  destruct (Nat.lt_trichotomy j k) as [Hlt | [-> | Hlt]]; [| done |].
  - destruct (Hd j k ltac:(lia)); congruence.
  - destruct (Hd k j ltac:(lia)); congruence.
Qed.

Lemma batch_ids_distinct_witness :
  (normalize Sample.now 6 Sample.ab_array
   = inr [fresh_idea Sample.now 0 (VStr "a"); fresh_idea Sample.now 1 (VStr "b")]
   /\ forall j k, j < k < 2 ->
        Date_now Sample.now j <> Date_now Sample.now k
        \/ Math_random_hex Sample.now j <> Math_random_hex Sample.now k)
  /\ NoDup ["local_1700000000000_9f3a7c21d4"; "local_1700000000001_9f3a7c21d4"].
Proof.
  assert (forall j k, j < k < 2 ->
            Date_now Sample.now j <> Date_now Sample.now k
            \/ Math_random_hex Sample.now j <> Math_random_hex Sample.now k)
    as Hd by (intros j k Hjk; left; cbn; lia).
  split; [by split |].
  exact (batch_ids_distinct Sample.now 6 Sample.ab_array _ eq_refl Hd).
Defined.

(** The same clock value and the same random digits give the same id
    twice. *)
Example batch_ids_can_collide :
  map id (imap (fresh_idea (mkEnv (fun _ => 5%Z) (fun _ => "ab") ""))
            [VStr "a"; VStr "b"])
  = ["local_5_ab"; "local_5_ab"].
Proof. reflexivity. Qed.

(** ** One event at a time *)

Lemma handle_settings w ev :
  settings_ok (app w) -> settings_ok (app (handle w ev)).
Proof.
  intros [Hc Ht]. destruct ev; open_step; try (split; assumption).
  - split; [assumption |]. by eapply bool_decide_eq_true_1.
  - split; [| assumption]. by eapply bool_decide_eq_true_1.
Qed.

Lemma handle_ideas_step w ev :
  ideas (app (handle w ev)) = ideas (app w)
  \/ ideas (app (handle w ev)) = []
  \/ (exists env c rid rest result,
        take_pending rid (pending w) = Some (KGenerate c, rest)
        /\ normalize env c result = inr (ideas (app (handle w ev))))
  \/ (exists env target newId,
        ideas (app (handle w ev))
        = map (mark_saved env target newId) (ideas (app w))).
Proof.
  destruct ev; open_step;
    first [ by left
          | by right; left
          | right; right; left; do 5 eexists; split; eassumption
          | right; right; right; do 3 eexists; reflexivity ].
Qed.

Lemma handle_pending_ok w ev :
  settings_ok (app w) ->
  Forall (fun e => closure_ok (snd e)) (pending w) ->
  Forall (fun e => closure_ok (snd e)) (pending (handle w ev)).
Proof.
  intros [Hc _] H. destruct ev; open_step;
    first [ assumption
          | by eapply take_pending_Forall
          | apply Forall_app; split;
            [ first [assumption | by eapply take_pending_Forall]
            | apply List.Forall_cons; [cbn; done | apply List.Forall_nil] ] ].
Qed.

Lemma handle_network_step w ev :
  network (handle w ev) = network w
  \/ exists c, network (handle w ev) = (network w ++ [c])%list /\ issued w c.
Proof.
  destruct ev; open_step; try (by left); right; eexists;
    (split; [reflexivity |]); cbn.
  - match goal with H : (_ <? 3)%nat = false |- _ => apply Nat.ltb_ge in H end.
    done.
  - match goal with H : (_ <? 3)%nat = false |- _ => apply Nat.ltb_ge in H end.
    done.
  - split; [done |]. eexists. split; [| reflexivity].
    by eapply list_elem_of_lookup_2.
  - match goal with H : negb _ = false |- _ => apply negb_false_iff in H end.
    split; [done |]. eexists. split; [| reflexivity].
    by eapply list_elem_of_lookup_2.
  - match goal with H : negb _ = false |- _ => apply negb_false_iff in H end.
    split; [done |]. split; [by eapply bool_decide_eq_true_1 |].
    eexists. split; [| reflexivity]. by eapply list_elem_of_lookup_2.
  - done.
Qed.

(** ** What every state of the mounted component satisfies *)

Lemma truthy_or_r a b : Js.truthy b = true -> Js.truthy (Js.or a b) = true.
Proof. intros H. unfold Js.or. by destruct (Js.truthy a) eqn:E. Qed.

Lemma mark_saved_ok env target newId it :
  record_ok it -> record_ok (mark_saved env target newId it).
Proof.
  intros ((rest & Hid) & Ht & Hs). unfold mark_saved.
  destruct (String.eqb (id it) target);
    [| split; [by exists rest | by split]].
  split; [by exists rest |]. split; [done |]. cbn. split; [by eexists |].
  intros _. apply truthy_or_r. by rewrite Hid.
Qed.

Lemma fresh_batch_length env c l :
  c ∈ counts -> length (imap (fresh_idea env) (kept_texts c l)) <= 12.
Proof.
  intros Hc. rewrite length_imap. unfold kept_texts. rewrite length_take.
  assert (Z.to_nat (slice_end c) <= 12); [| lia].
  unfold counts in Hc. set_unfold.
  destruct Hc as [-> | [-> | [-> | [-> | []]]]]; vm_compute; lia.
Qed.

Lemma issued_ok w c :
  settings_ok (app w) -> Forall record_ok (ideas (app w)) ->
  issued w c -> call_ok c.
Proof.
  intros [Hc Ht] Hr. destruct c as [t tn n | t x | | i | i f]; cbn.
  - intros (-> & Hl & -> & ->). by rewrite trim_idem.
  - intros (-> & idea & Hin & ->). split; [apply trim_idem |].
    apply (proj1 (Forall_forall _ _) Hr _ Hin).
  - done.
  - by intros (H & _).
  - by intros (H & Hf & _).
Qed.

Lemma wholesome_mount : wholesome mount.
Proof.
  split; [| split; [| split; [| split]]]; cbn.
  - split; set_solver.
  - constructor.
  - lia.
  - by repeat constructor.
  - by repeat constructor.
Qed.

Lemma wholesome_handle w ev : wholesome w -> wholesome (handle w ev).
Proof.
  intros (Hs & Hr & Hl & Hp & Hn).
  split; [by apply handle_settings |].
  assert (Forall record_ok (ideas (app (handle w ev)))
          /\ length (ideas (app (handle w ev))) <= 12) as [Hr' Hl'].
  { destruct (handle_ideas_step w ev)
      as [-> | [-> | [(env & c & rid & rest & result & Ht & Hnorm)
                     | (env & target & newId & ->)]]].
    - done.
    - split; [constructor | cbn; lia].
    - apply normalize_inr in Hnorm as (l & _ & ->).
      assert (c ∈ counts) as Hc.
      { clear -Hp Ht. revert rest Ht.
        induction Hp as [| [r k] p Hk _ IH]; intros rest; cbn; [done |].
        destruct (Nat.eqb r rid); [by intros [= ->] |].
        destruct (take_pending rid p) as [[k' q] |]; [| done].
        intros [= -> _]. by eapply IH. }
      split; [| by apply fresh_batch_length].
      apply fresh_batch_ok, kept_texts_all_truthy.
    - split; [| by rewrite length_map].
      apply Forall_fmap. eapply Forall_impl; [exact Hr |].
      intros it. apply mark_saved_ok. }
  split; [exact Hr' |]. split; [exact Hl' |].
  split; [by apply handle_pending_ok |].
  destruct (handle_network_step w ev) as [-> | (c & -> & Hc)]; [done |].
  apply Forall_app. split; [done |].
  apply List.Forall_cons; [| constructor]. by eapply issued_ok.
Qed.

Lemma reachable_wholesome w : reachable w -> wholesome w.
Proof.
  induction 1 as [| w ev _ IH]; [apply wholesome_mount |].
  by apply wholesome_handle.
Qed.

(** X7. In every state of the mounted component there are at most 12
    records; each has a local id that begins with "local_" and a truthy
    text, and it has a remote identifier exactly when it has a save
    time. *)
Theorem records_well_formed w :
  reachable w ->
  length (ideas (app w)) <= 12
  /\ forall idea,
       idea ∈ ideas (app w) ->
       (exists rest, id idea = "local_" +:+ rest)
       /\ Js.truthy (text idea) = true
       /\ (Js.truthy (savedId idea) = true <-> is_Some (savedAt idea)).
Proof.
  intros (_ & Hr & Hl & _)%reachable_wholesome. split; [done |].
  intros idea Hin. exact (proj1 (Forall_forall _ _) Hr _ Hin).
Qed.

Lemma records_well_formed_witness :
  reachable Sample.saved_once
  /\ (forall idea, idea ∈ ideas (app Sample.saved_once) ->
        Js.truthy (savedId idea) = true <-> is_Some (savedAt idea)).
Proof.
  assert (reachable Sample.saved_once) as Hr
    by (do 4 apply reachable_run; apply reach_mount).
  split; [exact Hr |]. intros idea Hin.
  exact (proj2 (proj2 (proj2 (records_well_formed _ Hr) idea Hin))).
Defined.

(** X8. Every call the mounted component has issued passed its checks: a
    generate call carries a trimmed topic of at least 3 characters, one of
    the six tones and a count among 3, 6, 9 and 12; a save call carries a
    trimmed topic (which may be empty) and a truthy text; share and export
    calls carry a truthy identifier, and an export call the format txt or
    json. *)
Theorem issued_calls_validated w :
  reachable w ->
  forall c, c ∈ network w ->
    match c with
    | Api.generateIdeas t tn n =>
        Str.trim t = t /\ 3 <= String.length t /\ tn ∈ tones /\ n ∈ counts
    | Api.saveIdea t x => Str.trim t = t /\ Js.truthy x = true
    | Api.listSavedIdeas => True
    | Api.shareIdea i => Js.truthy i = true
    | Api.exportIdea i format =>
        Js.truthy i = true /\ format ∈ ["txt"; "json"]
    end.
Proof.
  intros (_ & _ & _ & _ & Hn)%reachable_wholesome c Hin.
  exact (proj1 (Forall_forall _ _) Hn _ Hin).
Qed.

Lemma issued_calls_validated_witness :
  reachable Sample.generated
  /\ Api.generateIdeas "coffee shop" "Creative" 6 ∈ network Sample.generated
  /\ Str.trim "coffee shop" = "coffee shop".
Proof.
  assert (reachable Sample.generated) as Hr
    by (apply reachable_run, reach_mount).
  assert (Api.generateIdeas "coffee shop" "Creative" 6
            ∈ network Sample.generated) as Hin
    by (vm_compute; set_solver).
  split; [exact Hr |]. split; [exact Hin |].
  exact (proj1 (issued_calls_validated _ Hr _ Hin)).
Defined.

(** Save does not look at the topic: with the field emptied after a
    generation, the save call carries the empty topic. *)
Example save_with_empty_topic :
  network (run Sample.generated [ChangeTopic "  "; ClickSave 0])
  = [Api.listSavedIdeas; Api.generateIdeas "coffee shop" "Creative" 6;
     Api.saveIdea "" (VStr "a")].
Proof. vm_compute. reflexivity. Qed.

(** X9. The log of issued calls only grows: an event issues at most one
    call and leaves the earlier ones in place, so the calls issued up to any
    state are a prefix of those issued up to any later state. *)
Theorem calls_only_appended w evs :
  network w `prefix_of` network (run w evs)
  /\ forall ev, length (network (handle w ev)) <= S (length (network w)).
Proof.
  split.
  - revert w. induction evs as [| ev evs IH]; intros w; cbn; [done |].
    etrans; [| apply IH].
    destruct (handle_network_step w ev) as [-> | (c & -> & _)]; [done |].
    by apply prefix_app_r.
  - intros ev.
    destruct (handle_network_step w ev) as [-> | (c & -> & _)]; [lia |].
    rewrite length_app. cbn. lia.
Qed.

Lemma awaited_handle w ev : loading_awaited w -> loading_awaited (handle w ev).
Proof.
  unfold loading_awaited. intros Hw. destruct ev; open_step; intros Hl;
    try discriminate Hl; try (by apply Hw);
    match goal with
    | |- context [length (List.filter _ ?p)] =>
        change (length (List.filter _ p)) with (inflight TGenerate p)
    end;
    rewrite ?inflight_snoc; cbn [tag];
    rewrite ?bool_decide_eq_true_2 by done;
    try lia;
    try match goal with
        | H : take_pending _ _ = Some _ |- _ =>
            let Ht := fresh "Ht" in
            pose proof (inflight_take TGenerate _ _ _ _ H) as Ht;
            cbn [tag] in Ht;
            rewrite bool_decide_eq_false_2 in Ht by done
        end;
    specialize (Hw Hl); rewrite ?bool_decide_eq_false_2 by done; lia.
Qed.

Lemma reachable_awaited w : reachable w -> loading_awaited w.
Proof.
  induction 1 as [| w ev _ IH]; [done |]. by apply awaited_handle.
Qed.

Lemma inflight_nil t : inflight t [] = 0.
Proof. reflexivity. Qed.

(** X10. What the flags say about the operations in flight, in every state
    of the mounted component.  The busy flag of a record and kind is on
    exactly when a handler of that record and kind is suspended.  While the
    generation status is "loading" a generate call is awaited.  With no
    handler suspended the status is not "loading", no busy flag is on, and
    the submit button is enabled exactly when the trimmed topic has at least
    three characters. *)
Theorem flags_follow_operations w :
  reachable w ->
  (generationStatus (app w) = loading -> 0 < inflight TGenerate (pending w))
  /\ (forall i, on (saving (busy_of (app w) i)) = true
                <-> 0 < inflight (TOp save i) (pending w))
  /\ (forall i, on (sharing (busy_of (app w) i)) = true
                <-> 0 < inflight (TOp share i) (pending w))
  /\ (forall i, on (exporting (busy_of (app w) i)) = true
                <-> 0 < inflight (TOp export i) (pending w))
  /\ (pending w = [] ->
      generationStatus (app w) <> loading
      /\ (forall i, on (saving (busy_of (app w) i)) = false
                    /\ on (sharing (busy_of (app w) i)) = false
                    /\ on (exporting (busy_of (app w) i)) = false)
      /\ canGenerate (app w)
         = (3 <=? String.length (Str.trim (topic (app w))))%nat).
Proof.
  intros Hr. pose proof (reachable_awaited w Hr) as Hg.
  destruct (reachable_consistent w Hr) as (Ha & _ & _).
  assert (forall t, is_op t = true ->
            flagged t (app w) = true <-> 0 < inflight t (pending w)) as H.
  { intros t Ht. rewrite (Ha t Ht). destruct (flagged t (app w)); split;
      (done || lia). }
  split; [exact Hg |].
  split; [intros i; by rewrite <- (H (TOp save i)) |].
  split; [intros i; by rewrite <- (H (TOp share i)) |].
  split; [intros i; by rewrite <- (H (TOp export i)) |].
  intros Hp.
  assert (generationStatus (app w) <> loading) as Hl.
  { intros Hl. specialize (Hg Hl). rewrite Hp, inflight_nil in Hg. lia. }
  split; [exact Hl |]. split.
  - intros i.
    pose proof (H (TOp save i) eq_refl) as Hs.
    pose proof (H (TOp share i) eq_refl) as Hh.
    pose proof (H (TOp export i) eq_refl) as He.
    rewrite Hp, inflight_nil in Hs, Hh, He. cbn in Hs, Hh, He.
    repeat split; apply not_true_is_false; intros E;
      [apply Hs in E | apply Hh in E | apply He in E]; lia.
  - unfold canGenerate. rewrite bool_decide_eq_false_2 by done.
    by rewrite andb_true_r.
Qed.

(** While the save of the first record is in flight its flag is on; when
    the save and the refresh are done nothing is in flight, the flag is off
    and the submit button is enabled. *)
Lemma flags_follow_operations_witness :
  (reachable Sample.saving_first
   /\ 0 < inflight (TOp save (id Sample.first)) (pending Sample.saving_first)
   /\ reachable Sample.saved_once
   /\ pending Sample.saved_once = [])
  /\ on (saving (busy_of (app Sample.saving_first) (id Sample.first))) = true
  /\ on (saving (busy_of (app Sample.saved_once) (id Sample.first))) = false
  /\ canGenerate (app Sample.saved_once) = true.
Proof.
  assert (reachable Sample.saving_first) as Hr
    by (do 2 apply reachable_run; apply reach_mount).
  assert (0 < inflight (TOp save (id Sample.first))
                (pending Sample.saving_first)) as Hi by (vm_compute; lia).
  assert (reachable Sample.saved_once) as Hr'
    by (do 4 apply reachable_run; apply reach_mount).
  assert (pending Sample.saved_once = []) as Hp by (vm_compute; reflexivity).
  split; [by repeat split |].
  destruct (flags_follow_operations _ Hr) as (_ & Hs & _).
  destruct (flags_follow_operations _ Hr') as (_ & _ & _ & _ & Hidle).
  destruct (Hidle Hp) as (_ & Hoff & Hcan).
  split; [by apply Hs |].
  split; [exact (proj1 (Hoff _)) |].
  etrans; [exact Hcan |]. vm_compute. reflexivity.
Defined.

(** A generate call can still be awaited when the status is "success": a
    second call was submitted to the form and answered first. *)
Example generate_awaited_after_success :
  reachable Sample.newer_applied
  /\ generationStatus (app Sample.newer_applied) = success
  /\ inflight TGenerate (pending Sample.newer_applied) = 1.
Proof.
  split; [do 3 apply reachable_run; apply reach_mount |].
  split; vm_compute; reflexivity.
Qed.

(** A control can be disabled with nothing in flight: the submit button,
    under a topic that is too short. *)
Example submit_disabled_when_idle :
  pending (run Sample.saved_once [ChangeTopic "ab"]) = []
  /\ canGenerate (app (run Sample.saved_once [ChangeTopic "ab"])) = false.
Proof. split; vm_compute; reflexivity. Qed.

(** ** The other outcomes of the handlers *)

Lemma busy_after_patch i k b a :
  flagged (TOp k i) (setIdeaBusy i (patch_of k b) a) = b.
Proof. rewrite flagged_patch. by rewrite bool_decide_eq_true_2. Qed.

(** X11. A topic of fewer than 3 characters after trimming cannot be
    submitted: the submit control does nothing.  [onGenerate] itself, were
    it invoked, would set the validation error and the status "error",
    issue no call and, unlike a failed call, keep the records. *)
Theorem short_topic_not_generated w :
  String.length (Str.trim (topic (app w))) < 3 ->
  handle w Submit = w
  /\ network (onGenerate w) = network w
  /\ pending (onGenerate w) = pending w
  /\ ideas (app (onGenerate w)) = ideas (app w)
  /\ generationStatus (app (onGenerate w)) = error
  /\ generationError (app (onGenerate w))
     = "Please enter at least 3 characters.".
Proof.
  intros H. split.
  - cbn [handle]. unfold canGenerate.
    assert ((3 <=? String.length (Str.trim (topic (app w))))%nat = false) as ->
      by (apply Nat.leb_gt; lia).
    reflexivity.
  - unfold onGenerate.
    assert ((String.length (Str.trim (topic (app w))) <? 3)%nat = true) as ->
      by (apply Nat.ltb_lt; lia).
    by repeat split.
Qed.

Lemma short_topic_not_generated_witness :
  String.length (Str.trim (topic (app (run Sample.generated [ChangeTopic " ab "])))) < 3
  /\ map text (ideas (app (onGenerate (run Sample.generated [ChangeTopic " ab "]))))
     = [VStr "a"; VStr "b"].
Proof.
  assert (String.length
            (Str.trim (topic (app (run Sample.generated [ChangeTopic " ab "])))) < 3)
    as H by (vm_compute; lia).
  split; [exact H |].
  destruct (short_topic_not_generated _ H) as (_ & _ & _ & -> & _).
  vm_compute. reflexivity.
Defined.

(** X12. When a save call fails, the records are left as they were (the
    record stays unsaved), the record's error becomes the message of the
    failure, or "Failed to save." when it has none, and is never empty, the
    saving flag of the record is cleared, and no refresh of the saved view
    is issued. *)
Theorem failed_save_leaves_record env rid idea rest e w :
  take_pending rid (pending w) = Some (KSave idea, rest) ->
  let w' := handle w (Settle env rid (Rejected e)) in
  ideas (app w') = ideas (app w)
  /\ errorByIdeaId (app w') !! id idea
     = Some (Str.or_else (err_message e) "Failed to save.")
  /\ errorByIdeaId (app w') !! id idea <> Some ""
  /\ on (saving (busy_of (app w') (id idea))) = false
  /\ network w' = network w
  /\ pending w' = rest
  /\ savedIdeas (app w') = savedIdeas (app w)
  /\ notice (app w') = Some (mkNotice "error" "Save failed.").
Proof.
  intros Hp w'. subst w'. cbn [handle].
  rewrite (resume_pending _ _ _ _ _ _ Hp). cbn [run_cont resume_save].
  split; [reflexivity |]. split; [| split; [| split]].
  - cbn. by rewrite lookup_insert_eq.
  - cbn. rewrite lookup_insert_eq. intros [= E].
    by apply (or_else_nonempty (err_message e) "Failed to save.").
  - exact (busy_after_patch (id idea) save false _).
  - by repeat split.
Qed.

Lemma failed_save_leaves_record_witness :
  take_pending 2 (pending Sample.saving_first) = Some (KSave Sample.first, [])
  /\ savedId <$> ideas (app (handle Sample.saving_first
                               (Settle Sample.now 2 (Rejected (new_Error "")))))
     = [VUndef; VUndef]
  /\ errorByIdeaId (app (handle Sample.saving_first
                           (Settle Sample.now 2 (Rejected (new_Error "")))))
       !! id Sample.first = Some "Failed to save.".
Proof.
  assert (take_pending 2 (pending Sample.saving_first)
          = Some (KSave Sample.first, [])) as Hp by (vm_compute; reflexivity).
  split; [exact Hp |].
  destruct (failed_save_leaves_record Sample.now 2 _ _ (new_Error "") _ Hp)
    as (Hi & He & _).
  rewrite Hi. split; [vm_compute; reflexivity | exact He].
Defined.

(** X13. The answer of a share call is searched for a link in the order
    [url], [share_url], [shareUrl], [link]: the first truthy one is handed
    to the clipboard and the handler waits for the copy.  When none is
    truthy nothing is copied, the record's error is "Backend did not return
    a share URL." and the sharing flag is cleared.  Either way the records
    are not touched and no call is issued. *)
Theorem share_answer_link_order env rid idea rest data w :
  take_pending rid (pending w) = Some (KShare idea, rest) ->
  let w' := handle w (Settle env rid (Fulfilled data)) in
  let url := Js.get data "url" in
  let share_url := Js.get data "share_url" in
  let shareUrl := Js.get data "shareUrl" in
  let link := Js.get data "link" in
  ideas (app w') = ideas (app w)
  /\ network w' = network w
  /\ (forall u,
        (Js.truthy url = true /\ u = url)
        \/ (Js.truthy url = false /\ Js.truthy share_url = true /\ u = share_url)
        \/ (Js.truthy url = false /\ Js.truthy share_url = false
            /\ Js.truthy shareUrl = true /\ u = shareUrl)
        \/ (Js.truthy url = false /\ Js.truthy share_url = false
            /\ Js.truthy shareUrl = false /\ Js.truthy link = true /\ u = link) ->
        clipboard w' = (clipboard w ++ [u])%list
        /\ pending w' = (rest ++ [(next w, KShareCopy idea)])%list
        /\ errorByIdeaId (app w') = errorByIdeaId (app w))
  /\ (Js.truthy url = false -> Js.truthy share_url = false ->
      Js.truthy shareUrl = false -> Js.truthy link = false ->
      clipboard w' = clipboard w
      /\ pending w' = rest
      /\ errorByIdeaId (app w') !! id idea
         = Some "Backend did not return a share URL."
      /\ on (sharing (busy_of (app w') (id idea))) = false).
Proof.
  intros Hp w' url share_url shareUrl link.
  subst w' url share_url shareUrl link. cbn [handle].
  rewrite (resume_pending _ _ _ _ _ _ Hp). cbn [run_cont]. unfold resume_share.
  split; [by destruct (negb _) |]. split; [by destruct (negb _) |]. split.
  - intros u Hu.
    assert (response_url data = u /\ Js.truthy u = true) as [E Ht].
    { unfold response_url.
      destruct Hu as [(H1 & ->) | [(H1 & H2 & ->)
                     | [(H1 & H2 & H3 & ->) | (H1 & H2 & H3 & H4 & ->)]]];
        (split; [| done]).
      - by rewrite !(or_truthy (Js.get data "url")).
      - rewrite (or_falsy (Js.get data "url")) by done.
        by rewrite !(or_truthy (Js.get data "share_url")).
      - rewrite (or_falsy (Js.get data "url")),
          (or_falsy (Js.get data "share_url")) by done.
        by rewrite !(or_truthy (Js.get data "shareUrl")).
      - rewrite (or_falsy (Js.get data "url")),
          (or_falsy (Js.get data "share_url")),
          (or_falsy (Js.get data "shareUrl")) by done.
        by rewrite (or_truthy (Js.get data "link")). }
    rewrite E, Ht. cbn. by repeat split.
  - intros H1 H2 H3 H4.
    assert (response_url data = VStr "") as ->.
    { unfold response_url.
      by rewrite (or_falsy (Js.get data "url")),
        (or_falsy (Js.get data "share_url")),
        (or_falsy (Js.get data "shareUrl")), (or_falsy (Js.get data "link")). }
    cbn [Js.truthy Str.is_empty negb]. split; [reflexivity |].
    split; [reflexivity |]. split.
    + cbn. by rewrite lookup_insert_eq.
    + exact (busy_after_patch (id idea) share false _).
Qed.

Lemma share_answer_link_order_witness :
  take_pending 4 (pending (run Sample.saved_once [ClickShare 0]))
  = Some (KShare (mkIdea "local_1700000000000_9f3a7c21d4" (VStr "a")
                    (VStr "r1") (Some "2026-01-01T00:00:00.000Z")), [])
  /\ clipboard (run Sample.saved_once
                  [ClickShare 0;
                   Settle Sample.now 4
                     (Fulfilled (VObj [("url", VStr "");
                                       ("link", VStr "https://x.test/s/1")]))])
     = [VStr "https://x.test/s/1"].
Proof.
  assert (take_pending 4 (pending (run Sample.saved_once [ClickShare 0]))
          = Some (KShare (mkIdea "local_1700000000000_9f3a7c21d4" (VStr "a")
                            (VStr "r1") (Some "2026-01-01T00:00:00.000Z")), []))
    as Hp by (vm_compute; reflexivity).
  split; [exact Hp |].
  destruct (share_answer_link_order Sample.now 4 _ _
              (VObj [("url", VStr ""); ("link", VStr "https://x.test/s/1")])
              _ Hp) as (_ & _ & H & _).
  destruct (H (VStr "https://x.test/s/1")) as (Hc & _).
  { right; right; right. by repeat split. }
  etrans; [exact Hc |]. vm_compute. reflexivity.
Defined.

(** X14. The initial load of the saved ideas.  When it fails the view is
    marked "error" with the message of the failure, or "Failed to load
    saved ideas." when it has none, and the list is left as it was.  When it
    succeeds with a list of plain entries, which is the answer itself if
    that is an array, else its [items] field if that is an array, else the
    empty list if the answer has no truthy [items], the list replaces the
    saved view wholesale and the view is marked "success".  Neither touches
    the records or issues a call. *)
Theorem initial_load_outcome env rid rest o w :
  take_pending rid (pending w) = Some (KInitialLoad, rest) ->
  let w' := handle w (Settle env rid o) in
  ideas (app w') = ideas (app w)
  /\ network w' = network w
  /\ pending w' = rest
  /\ (forall e, o = Rejected e ->
        savedStatus (app w') = error
        /\ savedError (app w')
           = Str.or_else (err_message e) "Failed to load saved ideas."
        /\ savedError (app w') <> ""
        /\ savedIdeas (app w') = savedIdeas (app w))
  /\ (forall data l, o = Fulfilled data ->
        data = VArr l
        \/ (Js.is_array data = false /\ Js.get data "items" = VArr l)
        \/ (Js.is_array data = false
            /\ Js.truthy (Js.get data "items") = false /\ l = []) ->
        forallb Saved.plain l = true ->
        savedStatus (app w') = success
        /\ savedIdeas (app w') = VArr l
        /\ savedError (app w') = savedError (app w)).
Proof.
  intros Hp w'. subst w'. cbn [handle].
  rewrite (resume_pending _ _ _ _ _ _ Hp). cbn [run_cont].
  split; [by destruct o |]. split; [by destruct o |]. split; [by destruct o |].
  split.
  - intros e ->. cbn. split; [done |]. split; [done |]. split; [| done].
    by apply or_else_nonempty.
  - intros data l -> Hl _. cbn. unfold listed_items. split; [done |].
    split; [| done].
    destruct Hl as [-> | [(-> & Hi) | (-> & Hi & ->)]]; [done | |].
    + by rewrite Hi.
    + by rewrite (or_falsy _ _ Hi).
Qed.

(** The list arrives in the [items] field of the answer. *)
Lemma initial_load_outcome_witness :
  (take_pending 0 (pending mount) = Some (KInitialLoad, [])
   /\ forallb Saved.plain [VObj [("id", VStr "r0"); ("text", VStr "an older idea")]]
      = true)
  /\ savedIdeas
       (app (handle mount
               (Settle Sample.now 0
                  (Fulfilled (VObj [("items", Sample.saved_list)])))))
     = Sample.saved_list
  /\ savedStatus
       (app (handle mount
               (Settle Sample.now 0
                  (Fulfilled (VObj [("items", Sample.saved_list)])))))
     = success.
Proof.
  assert (take_pending 0 (pending mount) = Some (KInitialLoad, [])) as Hp
    by reflexivity.
  split; [split; [exact Hp | reflexivity] |].
  destruct (initial_load_outcome Sample.now 0 []
              (Fulfilled (VObj [("items", Sample.saved_list)]))
              mount Hp) as (_ & _ & _ & _ & H).
  destruct (H _ [VObj [("id", VStr "r0"); ("text", VStr "an older idea")]]
              eq_refl ltac:(right; left; split; reflexivity) eq_refl)
    as (Hs & Hi & _).
  split; [exact Hi | exact Hs].
Defined.

Example initial_load_failure :
  let w := handle mount
             (Settle Sample.now 0 (Rejected (new_Error "Failed to fetch"))) in
  savedStatus (app w) = error /\ savedError (app w) = "Failed to fetch".
Proof. split; reflexivity. Qed.



(** The answer names the file by an object that cannot be converted:
    assigning it to the link throws, the [catch] clause runs, and nothing is
    downloaded. *)
Example export_name_not_convertible :
  let w := run Sample.saved_once [ClickExport 0 "txt"] in
  let w' := handle w
              (Settle Sample.now 4
                 (Fulfilled (VObj [("filename", VObj [("toString", VNull)]);
                                   ("content", VStr "An idea.")]))) in
  downloads w' = []
  /\ errorByIdeaId (app w') !! "local_1700000000000_9f3a7c21d4"
     = Some "Cannot convert object to primitive value"
  /\ pending w' = [].
Proof. repeat split; vm_compute; reflexivity. Qed.

(** X16. Export of a record without a remote identifier stays on the
    client whatever the format: no call is issued, no handler is suspended,
    no busy flag is set and the records are left alone.  For format json
    the download is the JSON text of the object made of the trimmed topic
    and the record's text, under the name [safeName-last6.json]; for a
    format other than txt and json nothing is downloaded and the record's
    error is set. *)
Theorem unsaved_export_is_local w idea format :
  Js.truthy (savedId idea) = false ->
  let w' := onExport idea format w in
  network w' = network w
  /\ pending w' = pending w
  /\ ideas (app w') = ideas (app w)
  /\ busyByIdeaId (app w') = busyByIdeaId (app w)
  /\ (format = "json" ->
      downloads w'
      = (downloads w
         ++ [mkDownload
               (VStr ((safeName (topic (app w)) +:+ "-"
                       +:+ Str.slice_last 6 (id idea)) +:+ ".json"))
               (Stringified
                  (VObj [("topic", VStr (Str.trim (topic (app w))));
                         ("idea", text idea)]))
               (VStr "application/json;charset=utf-8")])%list)
  /\ (format <> "txt" -> format <> "json" ->
      downloads w' = downloads w
      /\ errorByIdeaId (app w') !! id idea
         = Some "Save the idea before exporting in this format.").
Proof.
  intros H w'. subst w'. unfold onExport, local_export. rewrite H. cbn [negb].
  destruct (String.eqb_spec format "txt") as [-> | Ht];
    [case_match; by repeat split |].
  destruct (String.eqb_spec format "json") as [-> | Hj].
  - cbn. by repeat split.
  - repeat split; try done. cbn. by rewrite lookup_insert_eq.
Qed.

Lemma unsaved_export_is_local_witness :
  Js.truthy (savedId Sample.first) = false
  /\ ("md" <> "txt" /\ "md" <> "json")
  /\ network (onExport Sample.first "md" Sample.generated)
     = network Sample.generated
  /\ downloads (onExport Sample.first "md" Sample.generated) = [].
Proof.
  split; [reflexivity |]. split; [by split |].
  destruct (unsaved_export_is_local Sample.generated Sample.first "md" eq_refl)
    as (Hn & _ & _ & _ & _ & Hd).
  split; [exact Hn |].
  exact (proj1 (Hd ltac:(done) ltac:(done))).
Defined.

(** X17. When the timeout aborts the fetch of a call, the message
    "Request timed out. Please try again." is what the user sees: as the
    generation error with the status "error" for a generate call, as the
    record's error for a save, share or export call, and as the error of
    the saved view for the initial load. *)
Theorem timeout_message_surfaces parse e env rid rest w :
  err_name e = "AbortError" ->
  let w' := handle w (Settle env rid (Api.request parse (Api.Threw e))) in
  let message := "Request timed out. Please try again." in
  (forall c, take_pending rid (pending w) = Some (KGenerate c, rest) ->
     generationStatus (app w') = error /\ generationError (app w') = message)
  /\ (forall idea, take_pending rid (pending w) = Some (KSave idea, rest) ->
        errorByIdeaId (app w') !! id idea = Some message)
  /\ (forall idea, take_pending rid (pending w) = Some (KShare idea, rest) ->
        errorByIdeaId (app w') !! id idea = Some message)
  /\ (forall idea sid format,
        take_pending rid (pending w) = Some (KExport idea sid format, rest) ->
        errorByIdeaId (app w') !! id idea = Some message)
  /\ (take_pending rid (pending w) = Some (KInitialLoad, rest) ->
      savedStatus (app w') = error /\ savedError (app w') = message).
Proof.
  intros He w' message. subst w' message. cbn [Api.request handle].
  rewrite He. cbn [String.eqb Ascii.eqb Bool.eqb].
  repeat split; intros;
    match goal with H : take_pending _ _ = Some _ |- _ =>
      rewrite (resume_pending _ _ _ _ _ _ H) end;
    cbn; try reflexivity; by rewrite lookup_insert_eq.
Qed.

Lemma timeout_message_surfaces_witness :
  (err_name (mkJsError "AbortError" "The operation was aborted." None VUndef)
   = "AbortError"
   /\ take_pending 2 (pending Sample.saving_first)
      = Some (KSave Sample.first, []))
  /\ errorByIdeaId
       (app (handle Sample.saving_first
               (Settle Sample.now 2
                  (Api.request (fun _ => None)
                     (Api.Threw (mkJsError "AbortError"
                                   "The operation was aborted." None VUndef))))))
       !! id Sample.first
     = Some "Request timed out. Please try again.".
Proof.
  assert (take_pending 2 (pending Sample.saving_first)
          = Some (KSave Sample.first, [])) as Hp by (vm_compute; reflexivity).
  split; [by split |].
  destruct (timeout_message_surfaces (fun _ => None)
              (mkJsError "AbortError" "The operation was aborted." None VUndef)
              Sample.now 2 [] Sample.saving_first eq_refl) as (_ & Hs & _).
  exact (Hs _ Hp).
Defined.

(** X18. The busy flags are kept per record and per kind of operation: a
    click on the Save button of a record changes at most the saving flag of
    that record, and likewise for Share and Export; the sharing and
    exporting flags of the record and every flag of every other record stay
    as they were, and so does the generation status. *)
Theorem busy_flags_are_separate w n idea t :
  ideas (app w) !! n = Some idea ->
  (t <> TOp save (id idea) ->
   flagged t (app (handle w (ClickSave n))) = flagged t (app w))
  /\ (t <> TOp share (id idea) ->
      flagged t (app (handle w (ClickShare n))) = flagged t (app w))
  /\ (forall format,
        t <> TOp export (id idea) ->
        flagged t (app (handle w (ClickExport n format))) = flagged t (app w)).
Proof.
  intros Hn.
  assert (forall k flag handler,
            t <> TOp k (id idea) ->
            (forall w0, flagged t (app (handler idea w0)) = flagged t (app w0)
                        \/ flagged t (app (handler idea w0))
                           = flagged t (setIdeaBusy (id idea) (patch_of k true)
                                          (setIdeaError (id idea) "" (app w0)))) ->
            flagged t (app (card_button flag n handler w)) = flagged t (app w))
    as Hcard.
  { intros k flag handler Ht Hh. apply card_button_ind; [done |].
    intros idea0 _ Hi _. rewrite Hn in Hi. injection Hi as <-.
    destruct (Hh w) as [-> | ->]; [done |].
    rewrite flagged_patch, bool_decide_eq_false_2 by done.
    by destruct t as [| | [] ? |]. }
  split; [| split].
  - intros Ht. cbn [handle]. apply (Hcard save); [done |].
    intros w0. by right.
  - intros Ht. cbn [handle]. apply (Hcard share); [done |].
    intros w0. unfold onShare. destruct (negb _); [left | by right].
    by destruct t as [| | [] ? |].
  - intros format Ht. cbn [handle].
    destruct (bool_decide _); [| done]. apply (Hcard export); [done |].
    intros w0. unfold onExport, local_export.
    destruct (negb _); [left | by right].
    repeat case_match; by destruct t as [| | [] ? |].
Qed.

Lemma busy_flags_are_separate_witness :
  (ideas (app Sample.generated) !! 0%nat = Some Sample.first
   /\ TOp share (id Sample.first) <> TOp save (id Sample.first))
  /\ on (sharing (busy_of (app Sample.saving_first) (id Sample.first))) = false.
Proof.
  assert (ideas (app Sample.generated) !! 0%nat = Some Sample.first) as Hn
    by (vm_compute; reflexivity).
  split; [by split |].
  destruct (busy_flags_are_separate Sample.generated 0 Sample.first
              (TOp share (id Sample.first)) Hn) as (Hs & _).
  etrans; [exact (Hs ltac:(done)) |]. vm_compute. reflexivity.
Defined.

(** ** What an event can change *)

(** X19. The record collection changes only when a generation is submitted
    or answered and when a save call succeeds; the saved view changes only
    when the initial load or the refresh after a save succeeds.  Editing the
    inputs, Share, Export, and every failure leave both as they were. *)
Theorem records_and_saved_view_frame w ev :
  (ideas (app (handle w ev)) = ideas (app w)
   \/ ev = Submit
   \/ ev = FormSubmit
   \/ exists env rid rest,
        (exists c o, ev = Settle env rid o
                     /\ take_pending rid (pending w) = Some (KGenerate c, rest))
        \/ (exists idea data,
              ev = Settle env rid (Fulfilled data)
              /\ take_pending rid (pending w) = Some (KSave idea, rest)))
  /\ (savedIdeas (app (handle w ev)) = savedIdeas (app w)
      \/ exists env rid rest data,
           ev = Settle env rid (Fulfilled data)
           /\ (take_pending rid (pending w) = Some (KInitialLoad, rest)
               \/ exists idea,
                    take_pending rid (pending w)
                    = Some (KSaveRefresh idea, rest))).
Proof.
  split.
  - destruct ev; open_step; try (by left); try (by right; left);
      try (by right; right; left);
      right; right; right; do 3 eexists;
      first [ left; do 2 eexists; split; [reflexivity | eassumption]
            | right; do 2 eexists; split; [reflexivity | eassumption] ].
  - destruct ev; open_step; try (by left);
      right; do 4 eexists; (split; [reflexivity |]);
      first [ left; eassumption | right; eexists; eassumption ].
Qed.

(** X20. A file is downloaded only by a click on Export or by the answer
    of an export call.  A text is handed to the clipboard only by the answer
    of a share call, which hands over the link, and by a click on a Copy
    button, which hands over the text of its record or of its row when that
    is truthy.  Each such event adds exactly one entry, and no event removes
    one. *)
Theorem downloads_and_clipboard_frame w ev :
  (downloads (handle w ev) = downloads w
   \/ exists d,
        downloads (handle w ev) = (downloads w ++ [d])%list
        /\ ((exists n format, ev = ClickExport n format)
            \/ exists env rid rest data idea sid format,
                 ev = Settle env rid (Fulfilled data)
                 /\ take_pending rid (pending w)
                    = Some (KExport idea sid format, rest)))
  /\ (clipboard (handle w ev) = clipboard w
      \/ (exists env rid rest data idea,
            ev = Settle env rid (Fulfilled data)
            /\ take_pending rid (pending w) = Some (KShare idea, rest)
            /\ clipboard (handle w ev)
               = (clipboard w ++ [response_url data])%list)
      \/ (exists n idea,
            ev = ClickCopy n
            /\ ideas (app w) !! n = Some idea
            /\ Js.truthy (text idea) = true
            /\ clipboard (handle w ev) = (clipboard w ++ [text idea])%list)
      \/ (exists n l row,
            ev = ClickCopySaved n
            /\ savedIdeas (app w) = VArr l
            /\ Saved.rows l !! n = Some row
            /\ Js.truthy (Saved.copied row) = true
            /\ clipboard (handle w ev)
               = (clipboard w ++ [Saved.copied row])%list)).
Proof.
  split.
  - destruct ev; open_step; try (by left);
      right; eexists; (split; [reflexivity |]);
      first [ left; do 2 eexists; reflexivity
            | right; do 7 eexists; split; [reflexivity | eassumption] ].
  - destruct ev; open_step; try (by left); right;
      first [ left; do 5 eexists; split; [reflexivity |]; split;
              [eassumption | reflexivity]
            | right; left; do 2 eexists; split; [reflexivity |];
              split; [eassumption |]; split; [eassumption | reflexivity]
            | right; right; do 3 eexists; split; [reflexivity |];
              split; [reflexivity |]; split; [eassumption |];
              split; [eassumption | reflexivity] ].
Qed.

(** A click on the Copy button of the first card hands its text over, and
    the notice follows when the copy is done. *)
Example copy_then_notice :
  let w := run Sample.generated [ClickCopy 0] in
  clipboard w = [VStr "a"]
  /\ map snd (pending w) = [KCopied]
  /\ notice (app w) = notice (app Sample.generated)
  /\ notice (app (handle w (Settle Sample.now 2 (Fulfilled VUndef))))
     = Some (mkNotice "success" "Copied.")
  /\ clipboard (run Sample.generated [ClickCopySaved 0]) = [VStr "an older idea"].
Proof. repeat split; vm_compute; reflexivity. Qed.
